(** * A shallow embedding of the Genie chat client

    This file models [genie_client.py] (the polling engine, the follow-up
    reconciler, the retry executor, the result extractor and the public
    operations of [GenieClient]) and the [/api/...] routes of [app.py] with the
    conversation ledger of [conversation_store.py] (its writes and its
    reads).

    Modelling conventions.
    - Python values reached through [getattr]/[hasattr] are the type [pyval]:
      SDK dataclass instances are [PObj cls fields], a missing attribute is a
      missing field.  Names the code probes ([query], [text], [content],
      [status], ...) exist on no builtin value, so [hasattr] on a builtin is
      false.
    - A raised exception is represented by its text [str(e)].
    - A Python [str] is a Rocq [string] read as Latin-1: each [ascii]
      character is one code point below 256, so slicing, [len] and the
      whitespace of [str.strip] count code points.  Text outside that range
      occurs only in two fixed error messages of [get_query_result], which
      are kept as their UTF-8 bytes.
    - The wall clock is an integer number of milliseconds.  Every duration of
      the source (timeout, poll intervals, retry delays, the settle interval)
      is written in milliseconds: the source's seconds times 1000.  Remote
      calls take no time; the clock moves by the [time.sleep] calls.
    - A remote service answers as a function of the clock, so a conversation
      can evolve while the client polls it.
    - [random.uniform(0, 1)] is the n-th value of an oracle of the workspace
      (in milliseconds). *)

From Stdlib Require Import ZArith List String Ascii Bool Lia.
From Stdlib Require Import Numbers.DecimalString Numbers.DecimalPos.
From Stdlib Require Import Sorting.Permutation Sorting.Sorted.
Import ListNotations.
Open Scope string_scope.
Open Scope Z_scope.
Set Warnings "-register-all".

(** ** Python values *)

Inductive pyval : Type :=
| PNone
| PBool (b : bool)
| PInt (z : Z)
| PStr (s : string)
| PList (xs : list pyval)
| PDict (kvs : list (string * pyval))
| PObj (cls : string) (fields : list (string * pyval)).

Fixpoint assoc {A} (k : string) (l : list (string * A)) : option A :=
  match l with
  | [] => None
  | (k', v) :: l' => if String.eqb k k' then Some v else assoc k l'
  end.

(** [getattr(v, name)] when the attribute exists. *)
Definition py_attr (v : pyval) (name : string) : option pyval :=
  match v with
  | PObj _ fs => assoc name fs
  | _ => None
  end.

Definition py_hasattr (v : pyval) (name : string) : bool :=
  match py_attr v name with Some _ => true | None => false end.

(** [getattr(v, name, default)] *)
Definition py_getattr (v : pyval) (name : string) (default : pyval) : pyval :=
  match py_attr v name with Some a => a | None => default end.

(** [dict.get(k, default)] *)
Definition py_dict_get (v : pyval) (k : string) (default : pyval) : option pyval :=
  match v with
  | PDict kvs => Some (match assoc k kvs with Some a => a | None => default end)
  | _ => None
  end.

(** [bool(v)] *)
Definition py_truthy (v : pyval) : bool :=
  match v with
  | PNone => false
  | PBool b => b
  | PInt z => negb (Z.eqb z 0)
  | PStr s => negb (String.eqb s "")
  | PList xs => match xs with [] => false | _ => true end
  | PDict kvs => match kvs with [] => false | _ => true end
  | PObj _ _ => true
  end.

(** [a or b] *)
Definition py_or (a b : pyval) : pyval := if py_truthy a then a else b.

(** [==] (dataclass instances compare field by field). *)
Fixpoint py_eqb (a b : pyval) {struct a} : bool :=
  let fix eq_list (xs ys : list pyval) : bool :=
      match xs, ys with
      | [], [] => true
      | x :: xs', y :: ys' => py_eqb x y && eq_list xs' ys'
      | _, _ => false
      end in
  let fix eq_fields (xs ys : list (string * pyval)) : bool :=
      match xs, ys with
      | [], [] => true
      | (k, x) :: xs', (k', y) :: ys' =>
          String.eqb k k' && py_eqb x y && eq_fields xs' ys'
      | _, _ => false
      end in
  match a, b with
  | PNone, PNone => true
  | PBool x, PBool y => Bool.eqb x y
  | PBool x, PInt y => Z.eqb (Z.b2z x) y
  | PInt x, PBool y => Z.eqb x (Z.b2z y)
  | PInt x, PInt y => Z.eqb x y
  | PStr x, PStr y => String.eqb x y
  | PList xs, PList ys => eq_list xs ys
  | PDict xs, PDict ys => eq_fields xs ys
  | PObj c xs, PObj c' ys => String.eqb c c' && eq_fields xs ys
  | _, _ => false
  end.

Definition py_type_name (v : pyval) : string :=
  match v with
  | PNone => "NoneType"
  | PBool _ => "bool"
  | PInt _ => "int"
  | PStr _ => "str"
  | PList _ => "list"
  | PDict _ => "dict"
  | PObj c _ => c
  end.

(** ** Strings *)

Definition Z_to_string (z : Z) : string :=
  NilEmpty.string_of_int (Z.to_int z).

Definition nat_to_string (n : nat) : string := Z_to_string (Z.of_nat n).

Fixpoint join (sep : string) (l : list string) : string :=
  match l with
  | [] => ""
  | [s] => s
  | s :: l' => s ++ sep ++ join sep l'
  end.

(** [repr(v)]; the quoting of a [str] is simplified to single quotes. *)
Fixpoint py_repr (v : pyval) : string :=
  match v with
  | PNone => "None"
  | PBool true => "True"
  | PBool false => "False"
  | PInt z => Z_to_string z
  | PStr s => "'" ++ s ++ "'"
  | PList xs => "[" ++ join ", " (map py_repr xs) ++ "]"
  | PDict kvs =>
      "{" ++ join ", " (map (fun kv => "'" ++ fst kv ++ "': " ++ py_repr (snd kv)) kvs) ++ "}"
  | PObj c fs =>
      c ++ "(" ++ join ", " (map (fun kv => fst kv ++ "=" ++ py_repr (snd kv)) fs) ++ ")"
  end.

(** [str(v)] *)
Definition py_str (v : pyval) : string :=
  match v with
  | PStr s => s
  | _ => py_repr v
  end.

Fixpoint string_map (f : ascii -> ascii) (s : string) : string :=
  match s with
  | EmptyString => EmptyString
  | String c s' => String (f c) (string_map f s')
  end.

(** Upper case of a Latin-1 code point: [a-z], and U+00E0..U+00FE but
    U+00F7, move down by 32.  The upper-case forms of U+00B5, U+00DF and
    U+00FF (U+039C, "SS", U+0178) lie outside this one-code-point Latin-1
    reading, and these three are left as they are; the text the program
    upper-cases (status enum values) is ASCII. *)
Definition ascii_upper (c : ascii) : ascii :=
  let n := nat_of_ascii c in
  if ((97 <=? n)%nat && (n <=? 122)%nat)
     || ((224 <=? n)%nat && (n <=? 254)%nat && negb (n =? 247)%nat)
  then ascii_of_nat (n - 32) else c.

(** Lower case of a Latin-1 code point: [A-Z], and U+00C0..U+00DE but
    U+00D7, move up by 32; exact for every code point below 256. *)
Definition ascii_lower (c : ascii) : ascii :=
  let n := nat_of_ascii c in
  if ((65 <=? n)%nat && (n <=? 90)%nat)
     || ((192 <=? n)%nat && (n <=? 222)%nat && negb (n =? 215)%nat)
  then ascii_of_nat (n + 32) else c.

(** [s.upper()] and [s.lower()] *)
Definition upper (s : string) : string := string_map ascii_upper s.
Definition lower (s : string) : string := string_map ascii_lower s.

(** [needle in hay] *)
Fixpoint str_contains (hay needle : string) : bool :=
  String.prefix needle hay ||
  match hay with
  | EmptyString => false
  | String _ hay' => str_contains hay' needle
  end.

(** The whitespace [str.strip()] removes: the code points below 256 for which
    [str.isspace] holds. *)
Definition py_isspace (c : ascii) : bool :=
  let n := nat_of_ascii c in
  ((9 <=? n)%nat && (n <=? 13)%nat) || ((28 <=? n)%nat && (n <=? 32)%nat)
  || (n =? 133)%nat || (n =? 160)%nat.

Fixpoint lstrip (s : string) : string :=
  match s with
  | EmptyString => EmptyString
  | String c s' => if py_isspace c then lstrip s' else s
  end.

Fixpoint rev_string (s : string) : string :=
  match s with
  | EmptyString => EmptyString
  | String c s' => rev_string s' ++ String c EmptyString
  end.

(** [s.strip()] *)
Definition strip (s : string) : string := rev_string (lstrip (rev_string (lstrip s))).

(** ** Exceptions, state and the clock *)

(** A Python computation either returns, raises (with [str] of the exception),
    or runs out of the fuel the model gives its [while] loops. *)
Inductive Exc (A : Type) : Type :=
| Ok (a : A)
| Raise (e : string)
| Stuck.
Arguments Ok {A} a.
Arguments Raise {A} e.
Arguments Stuck {A}.

Definition is_raise {A} (r : Exc A) : bool :=
  match r with Raise _ => true | _ => false end.

Inductive event : Type :=
| ECall (op : string)
| ESleep (ms : Z).

Record World : Type := mkWorld {
  clock : Z;
  draws : nat;
  trace : list event;
}.

Definition M (A : Type) : Type := World -> Exc A * World.

Definition ret {A} (a : A) : M A := fun w => (Ok a, w).

Definition bind {A B} (m : M A) (k : A -> M B) : M B :=
  fun w =>
    match m w with
    | (Ok a, w') => k a w'
    | (Raise e, w') => (Raise e, w')
    | (Stuck, w') => (Stuck, w')
    end.

Notation "x <- m ;; k" := (bind m (fun x => k))
  (at level 61, m at next level, right associativity).
Notation "m ;;; k" := (bind m (fun _ => k))
  (at level 61, right associativity).

Definition raise {A} (e : string) : M A := fun w => (Raise e, w).

Definition stuck {A} : M A := fun w => (Stuck, w).

(** [try: m except Exception as e: h(e)] *)
Definition try_except {A} (m : M A) (h : string -> M A) : M A :=
  fun w =>
    match m w with
    | (Raise e, w') => h e w'
    | r => r
    end.

Definition lift {A} (r : Exc A) : M A := fun w => (r, w).

(** [time.time()] *)
Definition now : M Z := fun w => (Ok (clock w), w).

(** [time.sleep(d)] *)
Definition sleep (d : Z) : M unit :=
  fun w =>
    if d <? 0 then (Raise "sleep length must be non-negative", w)
    else (Ok tt, mkWorld (clock w + d) (draws w) (trace w ++ [ESleep d])).

(** A strict attribute access [v.name]. *)
Definition attr (v : pyval) (name : string) : M pyval :=
  match py_attr v name with
  | Some a => ret a
  | None => raise ("'" ++ py_type_name v ++ "' object has no attribute '" ++ name ++ "'")
  end.

(** ** The remote workspace *)

Inductive reply : Type :=
| Reply (v : pyval)
| Fail (e : string).

(** What each SDK call answers when issued at a given clock reading. *)
Record Workspace : Type := mkWorkspace {
  start_conversation : Z -> string -> string -> reply;
  create_message : Z -> string -> pyval -> string -> reply;
  get_message : Z -> string -> pyval -> pyval -> reply;
  list_conversation_messages : Z -> string -> pyval -> reply;
  list_conversations_api : Z -> string -> reply;
  get_message_query_result : Z -> string -> pyval -> pyval -> reply;
  get_statement : Z -> pyval -> reply;
  send_message_feedback : Z -> string -> pyval -> pyval -> string -> reply;
  delete_conversation_api : Z -> string -> pyval -> reply;
  uniform : nat -> Z;
}.

(** ** Configuration of [GenieClient] *)

Record GenieClient : Type := mkGenieClient {
  space_id : string;
  timeout_seconds : Z;
  initial_poll_interval : Z;
  max_poll_interval : Z;
  max_retries : nat;
}.

(** [GenieClient(space_id)] with the constructor's defaults. *)
Definition default_client (sp : string) : GenieClient :=
  mkGenieClient sp 600000 1000 60000 3.

Definition RETRY_BASE_DELAY : Z := 1000.

Definition RETRYABLE_ERRORS : list string :=
  ["connection"; "timeout"; "rate limit"; "429";
   "500"; "502"; "503"; "504"; "temporarily unavailable"].

Definition FOLLOW_UP_SETTLE_SECONDS : Z := 3000.
Definition FOLLOW_UP_INITIAL_STABLE_CHECKS : nat := 3.
Definition FOLLOW_UP_CHAIN_STABLE_CHECKS : nat := 6.
Definition MAX_FOLLOW_UP_CYCLES : nat := 20.

Definition TERMINAL_SUCCESS_STATES : list string := ["COMPLETED"].
Definition TERMINAL_FAILURE_STATES : list string :=
  ["FAILED"; "CANCELLED"; "CANCELED"; "ABORTED"].

(** ** [GenieResult] *)

Record GenieResult : Type := mkGenieResult {
  success : bool;
  raw_response : string;
  query_result : option pyval;
  sql_query : pyval;
  error : option string;
  elapsed_seconds : option Z;
  conversation_id : pyval;
  message_id : pyval;
}.

(** [result.elapsed_seconds = e; result.conversation_id = c; result.message_id = m] *)
Definition set_meta (r : GenieResult) (e : Z) (c m : pyval) : GenieResult :=
  mkGenieResult (success r) (raw_response r) (query_result r) (sql_query r)
                (error r) (Some e) c m.

(** ** [_extract_result] *)

(** Pure Python code either returns a value ([inl]) or raises ([inr], with
    the text of the exception). *)
Definition PyResult (A : Type) : Type := (A + string)%type.

(** [for x in v] *)
Definition py_iter (v : pyval) : PyResult (list pyval) :=
  match v with
  | PList xs => inl xs
  | PStr s => inl (map (fun c => PStr (String c EmptyString)) (list_ascii_of_string s))
  | PDict kvs => inl (map (fun kv => PStr (fst kv)) kvs)
  | _ => inr ("'" ++ py_type_name v ++ "' object is not iterable")
  end.

(** [sep.join(items)] *)
Fixpoint py_join_items (i : nat) (items : list pyval) : PyResult (list string) :=
  match items with
  | [] => inl []
  | PStr s :: items' =>
      match py_join_items (S i) items' with
      | inl l => inl (s :: l)
      | inr e => inr e
      end
  | v :: _ =>
      inr ("sequence item " ++ nat_to_string i ++ ": expected str instance, "
           ++ py_type_name v ++ " found")
  end.

Definition py_join (sep : string) (items : list pyval) : PyResult string :=
  match py_join_items 0 items with
  | inl l => inl (join sep l)
  | inr e => inr e
  end.

(** One iteration of [for attachment in message.attachments]; the
    accumulator is [(query_texts, other_texts, sql_query)]. *)
Definition extract_attachment (acc : list pyval * list pyval * pyval)
    (attachment : pyval) : list pyval * list pyval * pyval :=
  let '(query_texts, other_texts, sql_query) := acc in
  let has_query :=
    if py_hasattr attachment "query" then py_getattr attachment "query" PNone
    else PBool false in
  let sql_query' :=
    if py_truthy has_query then
      match py_attr (py_getattr attachment "query" PNone) "query" with
      | Some q => q
      | None => sql_query
      end
    else sql_query in
  let text := py_getattr attachment "text" PNone in
  if py_hasattr attachment "text" && py_hasattr text "content" then
    let content := py_getattr text "content" PNone in
    if py_truthy has_query
    then (app query_texts [content], other_texts, sql_query')
    else (query_texts, app other_texts [content], sql_query')
  else (query_texts, other_texts, sql_query').

Definition NEWLINE : string := String "010" EmptyString.

(** The body of the [try] block of [_extract_result]. *)
Definition extract_body (message : pyval) : PyResult GenieResult :=
  let parts :=
    if py_hasattr message "attachments"
       && py_truthy (py_getattr message "attachments" PNone) then
      match py_iter (py_getattr message "attachments" PNone) with
      | inl atts => inl (fold_left extract_attachment atts ([], [], PNone))
      | inr e => inr e
      end
    else inl ([], [], PNone) in
  match parts with
  | inl (query_texts, other_texts, sql_query) =>
      (* Answer first, follow-up question(s) after *)
      match py_join NEWLINE (app query_texts other_texts) with
      | inl raw_response =>
          inl (mkGenieResult true (strip raw_response) None sql_query None None PNone PNone)
      | inr e => inr e
      end
  | inr e => inr e
  end.

Definition _extract_result (message : pyval) : GenieResult :=
  match extract_body message with
  | inl r => r
  | inr e =>
      mkGenieResult true (py_str message) None PNone
                    (Some ("Partial extraction: " ++ e)) None PNone PNone
  end.

Definition lift_py {A} (r : PyResult A) : M A :=
  match r with
  | inl a => ret a
  | inr e => raise e
  end.

(** [max(items, key=key)]: the first maximal item; [>] on two ints (or bools)
    or two strs, [TypeError] for the other pairs of types. *)
Definition py_int_of (v : pyval) : Z :=
  match v with
  | PInt z => z
  | PBool b => Z.b2z b
  | _ => 0
  end.

Definition py_gt (a b : pyval) : PyResult bool :=
  match a, b with
  | (PInt _ | PBool _), (PInt _ | PBool _) => inl (py_int_of b <? py_int_of a)
  | PStr x, PStr y => inl (match String.compare x y with Gt => true | _ => false end)
  | _, _ =>
      inr ("'>' not supported between instances of '" ++ py_type_name a
           ++ "' and '" ++ py_type_name b ++ "'")
  end.

Fixpoint max_by_from (key : pyval -> pyval) (best : pyval) (xs : list pyval)
    : PyResult pyval :=
  match xs with
  | [] => inl best
  | x :: xs' =>
      match py_gt (key x) (key best) with
      | inl true => max_by_from key x xs'
      | inl false => max_by_from key best xs'
      | inr e => inr e
      end
  end.

Definition py_max (key : pyval -> pyval) (v : pyval) : PyResult pyval :=
  match py_iter v with
  | inl [] => inr "max() arg is an empty sequence"
  | inl (x :: xs) => max_by_from key x xs
  | inr e => inr e
  end.

(** [f"{elapsed:.0f}"] of a duration in milliseconds, in whole seconds
    (rounding half to even). *)
Definition format_0f (ms : Z) : string :=
  let q := ms / 1000 in
  let r := ms mod 1000 in
  Z_to_string (if 500 <? r then q + 1
               else if r =? 500 then q + (q mod 2)
               else q).

(** ** Terminal State Evaluator *)

Definition _get_status_string (message : pyval) : string :=
  match py_attr message "status" with
  | Some status =>
      match py_attr status "value" with
      | Some v => upper (py_str v)
      | None => upper (py_str status)
      end
  | None => "UNKNOWN"
  end.

Definition _is_terminal_success (status : string) : bool :=
  existsb (fun s => str_contains status s) TERMINAL_SUCCESS_STATES.

Definition _is_terminal_failure (status : string) : bool :=
  existsb (fun s => str_contains status s) TERMINAL_FAILURE_STATES.

Section Client.

Variable ws : Workspace.
Variable self : GenieClient.

(** A call of the SDK: logged, answered by the workspace at the current
    clock reading. *)
Definition remote (op : string) (f : Z -> reply) : M pyval :=
  fun w =>
    let w' := mkWorld (clock w) (draws w) (app (trace w) [ECall op]) in
    match f (clock w) with
    | Reply v => (Ok v, w')
    | Fail e => (Raise e, w')
    end.

(** [random.uniform(0, 1)] *)
Definition random_uniform : M Z :=
  fun w => (Ok (uniform ws (draws w)), mkWorld (clock w) (S (draws w)) (trace w)).

(** ** Backoff Policy and Transient Failure Classifier *)

Definition _get_next_poll_interval (current_interval : Z) : Z :=
  Z.min (current_interval * 2) (max_poll_interval self).

Definition _is_retryable_error (error : string) : bool :=
  let error_str := lower error in
  existsb (fun indicator => str_contains error_str indicator) RETRYABLE_ERRORS.

(** ** Retry Executor *)

(** [for attempt in range(self.max_retries)], from [attempt] on, with
    [remaining] iterations left. *)
Fixpoint retry_loop {A} (func : M A) (attempt remaining : nat)
    (last_exception : option string) : M A :=
  match remaining with
  | O =>
      match last_exception with
      | Some e => raise e
      | None => raise "exceptions must derive from BaseException"
      end
  | S remaining' =>
      try_except func (fun e =>
        if negb (_is_retryable_error e) then raise e
        else
          (if (attempt <? max_retries self - 1)%nat then
             j <- random_uniform;;
             sleep (RETRY_BASE_DELAY * 2 ^ Z.of_nat attempt + j)
           else ret tt);;;
          retry_loop func (S attempt) remaining' (Some e))
  end.

Definition _retry_with_backoff {A} (func : M A) : M A :=
  retry_loop func 0 (max_retries self) None.

(** ** Polling Engine *)

Definition get_msg (conversation_id message_id : pyval) : M pyval :=
  remote "get_message"
    (fun t => get_message ws t (space_id self) conversation_id message_id).

Definition failed_result (err : string) (elapsed : Z) (cid mid : pyval) : GenieResult :=
  mkGenieResult false "" None PNone (Some err) (Some elapsed) cid mid.

(** The [while] loop of [_poll_for_result].  [wait_final] is the follow-up
    check [_wait_for_final_message], consulted only when [_check_follow_ups]
    holds. *)
Fixpoint poll_loop
    (wait_final : pyval -> pyval -> Z -> M (option GenieResult))
    (_check_follow_ups : bool) (fuel : nat)
    (conversation_id message_id : pyval) (start_time current_poll_interval : Z)
    : M GenieResult :=
  match fuel with
  | O => stuck
  | S fuel' =>
      t <- now;;
      if t - start_time <? timeout_seconds self then
        fetched <- try_except
                     (message <- _retry_with_backoff (get_msg conversation_id message_id);;
                      ret (Some message))
                     (fun _ => ret None);;
        match fetched with
        | None =>
            sleep current_poll_interval;;;
            poll_loop wait_final _check_follow_ups fuel' conversation_id message_id
                      start_time (_get_next_poll_interval current_poll_interval)
        | Some message =>
            let status := _get_status_string message in
            t' <- now;;
            let elapsed := t' - start_time in
            if _is_terminal_success status then
              final <- (if _check_follow_ups
                        then wait_final conversation_id message_id start_time
                        else ret None);;
              match final with
              | Some r => ret r
              | None => ret (set_meta (_extract_result message) elapsed
                                      conversation_id message_id)
              end
            else if _is_terminal_failure status then
              let error_msg := py_getattr message "error" (PStr ("Query " ++ status)) in
              ret (failed_result (py_str error_msg) elapsed conversation_id message_id)
            else
              sleep current_poll_interval;;;
              poll_loop wait_final _check_follow_ups fuel' conversation_id message_id
                        start_time (_get_next_poll_interval current_poll_interval)
        end
      else
        t' <- now;;
        let elapsed := t' - start_time in
        ret (failed_result ("Query timed out after " ++ format_0f elapsed ++ " seconds.")
                           elapsed conversation_id message_id)
  end.

(** Fuel for the [while] loop: one iteration per millisecond of the budget
    is enough when the poll interval is at least 1 ms. *)
Definition poll_fuel : nat := S (Z.to_nat (timeout_seconds self)).

(** [_poll_for_result(..., _check_follow_ups=False)] *)
Definition poll_no_follow_ups (conversation_id message_id : pyval) (start_time : Z)
    : M GenieResult :=
  poll_loop (fun _ _ _ => ret None) false poll_fuel conversation_id message_id
            start_time (initial_poll_interval self).

(** ** Follow-up Reconciler *)

Definition list_msgs (conversation_id : pyval) : M pyval :=
  remote "list_conversation_messages"
    (fun t => list_conversation_messages ws t (space_id self) conversation_id).

(** How the [for cycle in range(MAX_FOLLOW_UP_CYCLES)] loop is left: a
    [return] inside it, or [break] / exhaustion with the current
    [last_known_id]. *)
Inductive loop_exit : Type :=
| LReturn (r : option GenieResult)
| LBreak (last_known_id : pyval).

Definition timestamp_key (m : pyval) : pyval :=
  py_or (py_getattr m "last_updated_timestamp" (PInt 0)) (PInt 0).

Fixpoint follow_up_loop (cycles : nat) (conversation_id original_id last_known_id : pyval)
    (consecutive_stable : nat) (start_time : Z) : M loop_exit :=
  match cycles with
  | O => ret (LBreak last_known_id)
  | S cycles' =>
      t <- now;;
      if timeout_seconds self <=? t - start_time then ret (LBreak last_known_id)
      else
        sleep FOLLOW_UP_SETTLE_SECONDS;;;
        listed <- try_except
                    (response <- _retry_with_backoff (list_msgs conversation_id);;
                     ret (Some response))
                    (fun _ => ret None);;
        match listed with
        | None => ret (LBreak last_known_id)
        | Some response =>
            let items := if py_hasattr response "messages"
                         then py_getattr response "messages" PNone else response in
            if negb (py_truthy items) then ret (LBreak last_known_id)
            else
              latest_msg <- lift_py (py_max timestamp_key items);;
              let latest_id := py_or (py_getattr latest_msg "message_id" PNone)
                                     (py_getattr latest_msg "id" PNone) in
              if py_eqb latest_id last_known_id then
                let consecutive_stable' := S consecutive_stable in
                let required := if py_eqb last_known_id original_id
                                then FOLLOW_UP_INITIAL_STABLE_CHECKS
                                else FOLLOW_UP_CHAIN_STABLE_CHECKS in
                if (required <=? consecutive_stable')%nat then ret (LReturn None)
                else follow_up_loop cycles' conversation_id original_id last_known_id
                                    consecutive_stable' start_time
              else
                let status := _get_status_string latest_msg in
                if _is_terminal_failure status then ret (LReturn None)
                else if _is_terminal_success status then
                  follow_up_loop cycles' conversation_id original_id latest_id 0 start_time
                else
                  result <- poll_no_follow_ups conversation_id latest_id start_time;;
                  if negb (success result) then ret (LReturn None)
                  else follow_up_loop cycles' conversation_id original_id latest_id 0
                                      start_time
        end
  end.

(** The code after the loop: a follow-up adopted as [last_known_id] is
    re-fetched and extracted. *)
Definition after_follow_up_loop (conversation_id original_id last_known_id : pyval)
    (start_time : Z) : M (option GenieResult) :=
  if negb (py_eqb last_known_id original_id) then
    try_except
      (final_msg <- _retry_with_backoff (get_msg conversation_id last_known_id);;
       t <- now;;
       ret (Some (set_meta (_extract_result final_msg) (t - start_time)
                           conversation_id last_known_id)))
      (fun _ => ret None)
  else ret None.

Definition _wait_for_final_message (conversation_id last_known_id : pyval)
    (start_time : Z) : M (option GenieResult) :=
  let original_id := last_known_id in
  exit <- follow_up_loop MAX_FOLLOW_UP_CYCLES conversation_id original_id last_known_id
                         0 start_time;;
  match exit with
  | LReturn r => ret r
  | LBreak last_known_id' =>
      after_follow_up_loop conversation_id original_id last_known_id' start_time
  end.

Definition _poll_for_result (conversation_id message_id : pyval) (start_time : Z)
    (_check_follow_ups : bool) : M GenieResult :=
  poll_loop _wait_for_final_message _check_follow_ups poll_fuel conversation_id
            message_id start_time (initial_poll_interval self).

(** ** Public operations *)

Definition ask (question : string) : M GenieResult :=
  start_time <- now;;
  try_except
    (conversation <- _retry_with_backoff
                       (remote "start_conversation"
                          (fun t => start_conversation ws t (space_id self) question));;
     conversation_id <- attr conversation "conversation_id";;
     message_id <- attr conversation "message_id";;
     _poll_for_result conversation_id message_id start_time true)
    (fun e =>
       t <- now;;
       ret (mkGenieResult false "" None PNone (Some e) (Some (t - start_time)) PNone PNone)).

Definition continue_conversation (conversation_id : pyval) (question : string)
    : M GenieResult :=
  start_time <- now;;
  try_except
    (wait_resp <- _retry_with_backoff
                    (remote "create_message"
                       (fun t => create_message ws t (space_id self) conversation_id question));;
     message_id <- attr wait_resp "message_id";;
     _poll_for_result conversation_id message_id start_time true)
    (fun e =>
       t <- now;;
       ret (mkGenieResult false "" None PNone (Some e) (Some (t - start_time))
                          conversation_id PNone)).

(** [[f(x) for x in xs]] with an [f] that may raise. *)
Fixpoint map_m {A B} (f : A -> M B) (xs : list A) : M (list B) :=
  match xs with
  | [] => ret []
  | x :: xs' => y <- f x;; ys <- map_m f xs';; ret (y :: ys)
  end.

Definition list_conversations : M pyval :=
  try_except
    (response <- _retry_with_backoff
                   (remote "list_conversations"
                      (fun t => list_conversations_api ws t (space_id self)));;
     let items := if py_hasattr response "conversations"
                  then py_getattr response "conversations" PNone else response in
     if py_truthy items then
       convs <- lift_py (py_iter items);;
       conversations <- map_m (fun conv =>
         id <- (let c := py_getattr conv "conversation_id" PNone in
                if py_truthy c then ret c else attr conv "id");;
         ret (PDict [("id", id);
                     ("title", py_getattr conv "title" (PStr "Untitled"));
                     ("created_at", py_getattr conv "created_timestamp" PNone);
                     ("updated_at", py_getattr conv "last_updated_timestamp" PNone)]))
         convs;;
       ret (PList conversations)
     else ret (PList []))
    (fun _ => ret (PList [])).

(** [{"name": c.name, "type": str(c.type_name.value) if c.type_name else "STRING"}] *)
Definition column_entry (c : pyval) : M pyval :=
  name <- attr c "name";;
  type_name <- attr c "type_name";;
  ty <- (if py_truthy type_name then v <- attr type_name "value";; ret (py_str v)
         else ret "STRING");;
  ret (PDict [("name", name); ("type", PStr ty)]).

(** [len(v)] *)
Definition py_len (v : pyval) : PyResult Z :=
  match v with
  | PList xs => inl (Z.of_nat (List.length xs))
  | PStr s => inl (Z.of_nat (String.length s))
  | PDict kvs => inl (Z.of_nat (List.length kvs))
  | _ => inr ("object of type '" ++ py_type_name v ++ "' has no len()")
  end.

Definition _fetch_statement_result (statement_id columns : pyval) : M pyval :=
  try_except
    (result <- _retry_with_backoff
                 (remote "get_statement" (fun t => get_statement ws t statement_id));;
     status <- attr result "status";;
     not_succeeded <-
       (if py_truthy status then
          state <- attr status "state";;
          if py_truthy state then
            let state_str := match py_attr state "value" with
                             | Some v => py_str v
                             | None => py_str state
                             end in
            if negb (String.eqb state_str "SUCCEEDED")
            then ret (Some (PDict [("error", PStr ("Statement not succeeded (state="
                                                   ++ state_str ++ ")"))]))
            else ret None
          else ret None
        else ret None);;
     match not_succeeded with
     | Some d => ret d
     | None =>
         manifest <- attr result "manifest";;
         columns' <-
           (if py_truthy manifest then
              schema <- attr manifest "schema";;
              if py_truthy schema then
                cols <- attr schema "columns";;
                if py_truthy cols then
                  cs <- lift_py (py_iter cols);;
                  entries <- map_m column_entry cs;;
                  ret (PList entries)
                else ret columns
              else ret columns
            else ret columns);;
         res <- attr result "result";;
         rows <- (if py_truthy res then attr res "data_array" else ret PNone);;
         let rows' := match rows with PNone => PList [] | _ => rows end in
         total_rows <- (if py_truthy manifest then attr manifest "total_row_count"
                        else n <- lift_py (py_len rows');; ret (PInt n));;
         ret (PDict [("columns", columns'); ("rows", rows'); ("total_rows", total_rows)])
     end)
    (fun e => ret (PDict [("error", PStr ("Statement fetch failed: " ++ e))])).

Definition get_query_result (conversation_id message_id : pyval) : M pyval :=
  try_except
    (response <- _retry_with_backoff
                   (remote "get_message_query_result"
                      (fun t => get_message_query_result ws t (space_id self)
                                  conversation_id message_id));;
     stmt <- attr response "statement_response";;
     if negb (py_truthy stmt) then
       ret (PDict [("error", PStr "statement_response is None — query may still be executing")])
     else
       manifest <- attr stmt "manifest";;
       if negb (py_truthy manifest) then
         ret (PDict [("error", PStr "manifest is None — no schema returned")])
       else
         schema <- attr manifest "schema";;
         cols <- attr schema "columns";;
         cs <- lift_py (py_iter (py_or cols (PList [])));;
         columns <- map_m column_entry cs;;
         res <- attr stmt "result";;
         rows <- (if py_truthy res then attr res "data_array" else ret PNone);;
         match rows with
         | PNone =>
             (* No inline data: an empty result set or a large one *)
             let statement_id := py_getattr stmt "statement_id" PNone in
             if negb (py_truthy statement_id) then
               ret (PDict [("columns", PList columns); ("rows", PList []);
                           ("total_rows", PInt 0)])
             else _fetch_statement_result statement_id (PList columns)
         | _ =>
             total_rows <- attr manifest "total_row_count";;
             ret (PDict [("columns", PList columns); ("rows", rows);
                         ("total_rows", total_rows)])
         end)
    (fun e => ret (PDict [("error", PStr ("Exception: " ++ e))])).

Definition send_feedback (conversation_id message_id rating : pyval) : M bool :=
  try_except
    (let rating_enum := if py_eqb rating (PStr "positive") then "POSITIVE" else "NEGATIVE" in
     _retry_with_backoff
       (remote "send_message_feedback"
          (fun t => send_message_feedback ws t (space_id self) conversation_id
                                          message_id rating_enum));;;
     ret true)
    (fun _ => ret false).

Definition delete_conversation (conversation_id : pyval) : M bool :=
  try_except
    (_retry_with_backoff
       (remote "delete_conversation"
          (fun t => delete_conversation_api ws t (space_id self) conversation_id));;;
     ret true)
    (fun _ => ret false).

(** [a < b] *)
Definition py_lt (a b : pyval) : PyResult bool :=
  match a, b with
  | (PInt _ | PBool _), (PInt _ | PBool _) => inl (py_int_of a <? py_int_of b)
  | PStr x, PStr y => inl (match String.compare x y with Lt => true | _ => false end)
  | _, _ =>
      inr ("'<' not supported between instances of '" ++ py_type_name a
           ++ "' and '" ++ py_type_name b ++ "'")
  end.

(** [list.sort(key=key)]: a stable sort, here by insertion.  [x] comes
    from before every element of [sorted], so it goes in front of the first
    element whose key is not smaller than its own. *)
Fixpoint insert_by (key : pyval -> pyval) (x : pyval) (sorted : list pyval)
    : PyResult (list pyval) :=
  match sorted with
  | [] => inl [x]
  | y :: sorted' =>
      match py_lt (key y) (key x) with
      | inl false => inl (x :: y :: sorted')
      | inl true =>
          match insert_by key x sorted' with
          | inl l => inl (y :: l)
          | inr e => inr e
          end
      | inr e => inr e
      end
  end.

Fixpoint sort_by (key : pyval -> pyval) (xs : list pyval) : PyResult (list pyval) :=
  match xs with
  | [] => inl []
  | x :: xs' =>
      match sort_by key xs' with
      | inl sorted => insert_by key x sorted
      | inr e => inr e
      end
  end.

(** The entries one raw message contributes to the transcript. *)
Definition transcript_entries (msg : pyval) : list pyval :=
  let user_part :=
    if py_hasattr msg "content" && py_truthy (py_getattr msg "content" PNone) then
      [PDict [("role", PStr "user");
              ("content", PStr (py_str (py_getattr msg "content" PNone)));
              ("sql_query", PNone);
              ("timestamp", py_getattr msg "created_timestamp" PNone)]]
    else [] in
  let assistant_part :=
    if py_hasattr msg "attachments" && py_truthy (py_getattr msg "attachments" PNone) then
      let result := _extract_result msg in
      if py_truthy (PStr (raw_response result)) || py_truthy (sql_query result) then
        [PDict [("role", PStr "assistant");
                ("content", py_or (PStr (raw_response result)) (PStr "(Query executed)"));
                ("sql_query", sql_query result);
                ("message_id", py_or (py_getattr msg "message_id" PNone)
                                     (py_getattr msg "id" PNone));
                ("timestamp", py_getattr msg "last_updated_timestamp" PNone)]]
      else []
    else [] in
  app user_part assistant_part.

Definition transcript_key (m : pyval) : pyval :=
  match py_dict_get m "timestamp" PNone with
  | Some v => py_or v (PInt 0)
  | None => PInt 0
  end.

Definition get_conversation_messages (conversation_id : pyval)
    : M (list pyval * option string) :=
  try_except
    (response <- _retry_with_backoff (list_msgs conversation_id);;
     let items := if py_hasattr response "messages"
                  then py_getattr response "messages" PNone else response in
     messages <- (if py_truthy items then
                    _ <- lift_py (py_len items);;
                    msgs <- lift_py (py_iter items);;
                    ret (flat_map transcript_entries msgs)
                  else ret []);;
     (* Sort by timestamp for correct ordering *)
     sorted <- lift_py (sort_by transcript_key messages);;
     ret (sorted, None))
    (fun e => ret ([], Some e)).

End Client.

(** ** The ownership ledger ([conversation_store.py]) *)

(** A row of the Delta table. *)
Record ConvRow : Type := mkConvRow {
  row_user_email : string;
  row_conversation_id : pyval;
  row_title : string;
  row_created_at : Z;
  row_updated_at : Z;
}.

(** [ConversationStore.record]: the [INSERT] takes effect when [_execute]
    succeeds ([ok]); [_execute] catches every exception itself. *)
Definition record (table : list ConvRow) (ok : bool) (t : Z)
    (user_email : string) (conversation_id : pyval) (title : string) : list ConvRow :=
  if ok then app table [mkConvRow user_email conversation_id title t t] else table.

(** [ConversationStore.touch]: [UPDATE ... SET updated_at = current_timestamp()] *)
Definition touch (table : list ConvRow) (ok : bool) (t : Z)
    (user_email : string) (conversation_id : pyval) : list ConvRow :=
  if ok then
    map (fun r => if String.eqb (row_user_email r) user_email
                     && py_eqb (row_conversation_id r) conversation_id
                  then mkConvRow (row_user_email r) (row_conversation_id r) (row_title r)
                                 (row_created_at r) t
                  else r) table
  else table.

(** [ConversationStore.remove]: [DELETE ... WHERE user_email AND conversation_id] *)
Definition remove (table : list ConvRow) (ok : bool)
    (user_email : string) (conversation_id : pyval) : list ConvRow :=
  if ok then
    filter (fun r => negb (String.eqb (row_user_email r) user_email
                           && py_eqb (row_conversation_id r) conversation_id)) table
  else table.

(** ** The routes of [app.py] that write the ledger *)

(** A request as the route sees it: the JSON body or path parameter, the
    [X-Forwarded-Email] header, and whether the ledger's SQL statement
    succeeds. *)
Record Env : Type := mkEnv {
  GENIE_SPACE_ID : option string;
  conv_store : bool;
}.

(** [get_genie_client()]: no client when [GENIE_SPACE_ID] is unset or empty. *)
Definition get_genie_client (env : Env) : option GenieClient :=
  match GENIE_SPACE_ID env with
  | Some sp => if String.eqb sp "" then None else Some (default_client sp)
  | None => None
  end.

Definition not_configured : pyval :=
  PDict [("success", PBool false); ("error", PStr "GENIE_SPACE_ID not configured")].

(** [question[:60]] *)
Definition prefix60 (s : string) : string := substring 0 60 s.

Definition result_json (result : GenieResult) : pyval :=
  PDict [("success", PBool (success result));
         ("response", PStr (raw_response result));
         ("sql_query", sql_query result);
         ("elapsed_seconds", match elapsed_seconds result with
                             | Some e => PInt e | None => PNone end);
         ("error", match error result with Some e => PStr e | None => PNone end);
         ("conversation_id", conversation_id result);
         ("message_id", message_id result)].

(** The ledger update of [/api/ask] once the core has answered. *)
Definition update_ownership (env : Env) (table : list ConvRow) (ok : bool) (t : Z)
    (user_header : option string) (conversation_id0 : pyval) (question : string)
    (result : GenieResult) : list ConvRow :=
  if success result && py_truthy (conversation_id result) then
    let user_email := match user_header with Some u => u | None => "anonymous" end in
    if conv_store env then
      if negb (py_truthy conversation_id0)
      then record table ok t user_email (conversation_id result) (prefix60 question)
      else touch table ok t user_email (conversation_id result)
    else table
  else table.

(** [POST /api/ask] *)
Definition api_ask (ws : Workspace) (env : Env) (data : pyval) (user_header : option string)
    (ok : bool) (table : list ConvRow) : M (pyval * list ConvRow) :=
  match get_genie_client env with
  | None => ret (not_configured, table)
  | Some genie =>
      question <- (match py_dict_get data "question" (PStr "") with
                   | Some (PStr q) => ret (strip q)
                   | Some v => raise ("'" ++ py_type_name v
                                      ++ "' object has no attribute 'strip'")
                   | None => raise ("'" ++ py_type_name data
                                    ++ "' object has no attribute 'get'")
                   end);;
      if String.eqb question "" then
        ret (PDict [("success", PBool false); ("error", PStr "No question provided")], table)
      else
        let conversation_id0 := match py_dict_get data "conversation_id" PNone with
                                | Some v => v | None => PNone end in
        result <- (if py_truthy conversation_id0
                   then continue_conversation ws genie conversation_id0 question
                   else ask ws genie question);;
        t <- now;;
        ret (result_json result,
             update_ownership env table ok t user_header conversation_id0 question result)
  end.

(** [DELETE /api/conversations/<conversation_id>] *)
Definition api_delete_conversation (ws : Workspace) (env : Env) (conversation_id : pyval)
    (user_header : option string) (ok : bool) (table : list ConvRow)
    : M (pyval * list ConvRow) :=
  match get_genie_client env with
  | None => ret (not_configured, table)
  | Some genie =>
      deleted <- delete_conversation ws genie conversation_id;;
      if negb deleted then
        ret (PDict [("success", PBool false);
                    ("error", PStr "Failed to delete conversation")], table)
      else
        let user_email := match user_header with Some u => u | None => "anonymous" end in
        ret (PDict [("success", PBool true)],
             if conv_store env then remove table ok user_email conversation_id else table)
  end.

(** A sequence of ledger-writing requests served one after the other. *)
Inductive request : Type :=
| AskRequest (data : pyval) (user_header : option string) (ok : bool)
| DeleteRequest (conversation_id : pyval) (user_header : option string) (ok : bool).

Definition serve (ws : Workspace) (env : Env) (req : request) (table : list ConvRow)
    : M (pyval * list ConvRow) :=
  match req with
  | AskRequest data u ok => api_ask ws env data u ok table
  | DeleteRequest c u ok => api_delete_conversation ws env c u ok table
  end.

(** Requests whose handler raises get Flask's error response and leave the
    ledger as it was. *)
Fixpoint serve_all (ws : Workspace) (env : Env) (reqs : list request) (table : list ConvRow)
    : M (list pyval * list ConvRow) :=
  match reqs with
  | [] => ret ([], table)
  | req :: reqs' =>
      fun w =>
        match serve ws env req table w with
        | (Ok (resp, table'), w') =>
            bind (serve_all ws env reqs' table')
                 (fun r => ret (resp :: fst r, snd r)) w'
        | (Raise e, w') =>
            bind (serve_all ws env reqs' table)
                 (fun r => ret (PDict [("error", PStr e)] :: fst r, snd r)) w'
        | (Stuck, w') => (Stuck, w')
        end
  end.

(** ** Python helpers of the remaining routes *)

(** [hash(v)] succeeds: [None], [bool], [int] and [str] are hashable; lists,
    dicts and the SDK's dataclass instances (which define [__eq__]) are not. *)
Definition py_hashable (v : pyval) : bool :=
  match v with
  | PNone | PBool _ | PInt _ | PStr _ => true
  | _ => false
  end.

Definition unhashable (v : pyval) : string :=
  "unhashable type: '" ++ py_type_name v ++ "'".

(** [d[k]] with a [str] key. *)
Definition py_getitem (d : pyval) (k : string) : PyResult pyval :=
  match d with
  | PDict kvs =>
      match assoc k kvs with
      | Some v => inl v
      | None => inr ("'" ++ k ++ "'")
      end
  | PList _ => inr "list indices must be integers or slices, not str"
  | PStr _ => inr "string indices must be integers, not 'str'"
  | _ => inr ("'" ++ py_type_name d ++ "' object is not subscriptable")
  end.

(** [d.get(k, default)] on a value that may not be a dict. *)
Definition py_get (d : pyval) (k : string) (default : pyval) : PyResult pyval :=
  match py_dict_get d k default with
  | Some v => inl v
  | None => inr ("'" ++ py_type_name d ++ "' object has no attribute 'get'")
  end.

(** [k in d] with a [str] key. *)
Definition py_has_key (d : pyval) (k : string) : PyResult bool :=
  match d with
  | PDict kvs => inl (existsb (fun kv => String.eqb (fst kv) k) kvs)
  | PList xs => inl (existsb (fun x => py_eqb (PStr k) x) xs)
  | PStr s => inl (str_contains s k)
  | _ => inr ("argument of type '" ++ py_type_name d ++ "' is not iterable")
  end.

(** [d[k] = v] on a dict with [str] keys: an existing key keeps its place. *)
Fixpoint dict_set (k : string) (v : pyval) (kvs : list (string * pyval))
    : list (string * pyval) :=
  match kvs with
  | [] => [(k, v)]
  | (k', v') :: kvs' =>
      if String.eqb k' k then (k', v) :: kvs' else (k', v') :: dict_set k v kvs'
  end.

(** [{**base, **d}] with [base] a dict literal. *)
Definition dict_merge (base : list (string * pyval)) (d : pyval) : PyResult pyval :=
  match d with
  | PDict kvs => inl (PDict (fold_left (fun acc kv => dict_set (fst kv) (snd kv) acc) kvs base))
  | _ => inr ("'" ++ py_type_name d ++ "' object is not a mapping")
  end.

(** A dict with hashable keys of any type, as its items in insertion order:
    [d[k] = v] and [d.get(k)]. *)
Fixpoint pdict_set (k v : pyval) (d : list (pyval * pyval)) : list (pyval * pyval) :=
  match d with
  | [] => [(k, v)]
  | (k', v') :: d' => if py_eqb k' k then (k', v) :: d' else (k', v') :: pdict_set k v d'
  end.

Fixpoint pdict_lookup (k : pyval) (d : list (pyval * pyval)) : option pyval :=
  match d with
  | [] => None
  | (k', v) :: d' => if py_eqb k' k then Some v else pdict_lookup k d'
  end.

(** ** The read side of the ledger ([conversation_store.py]) *)

(** [ORDER BY updated_at DESC], as an insertion sort; rows with equal
    [updated_at] keep their table order (SQL leaves that order open, and no
    property below depends on it). *)
Fixpoint insert_updated_desc (r : ConvRow) (sorted : list ConvRow) : list ConvRow :=
  match sorted with
  | [] => [r]
  | r' :: sorted' =>
      if row_updated_at r' <=? row_updated_at r then r :: r' :: sorted'
      else r' :: insert_updated_desc r sorted'
  end.

Fixpoint order_by_updated_desc (rows : list ConvRow) : list ConvRow :=
  match rows with
  | [] => []
  | r :: rows' => insert_updated_desc r (order_by_updated_desc rows')
  end.

(** One entry of [get_conversations]: [row[1] or "Untitled"]. *)
Definition conversation_entry (r : ConvRow) : pyval :=
  PDict [("id", row_conversation_id r);
         ("title", py_or (PStr (row_title r)) (PStr "Untitled"));
         ("created_at", PInt (row_created_at r));
         ("updated_at", PInt (row_updated_at r))].

(** [ConversationStore.get_conversations]: the [SELECT ... WHERE user_email
    ORDER BY updated_at DESC] answers its rows when [_execute] succeeds
    ([ok]); otherwise [_execute] returns [None] and the list is empty. *)
Definition get_conversations (table : list ConvRow) (ok : bool) (user_email : string)
    : list pyval :=
  if ok then
    map conversation_entry
        (order_by_updated_desc
           (filter (fun r => String.eqb (row_user_email r) user_email) table))
  else [].

(** [{c["id"] for c in conversations}], a set as its items in insertion
    order. *)
Fixpoint id_set (acc : list pyval) (cs : list pyval) : PyResult (list pyval) :=
  match cs with
  | [] => inl acc
  | c :: cs' =>
      match py_getitem c "id" with
      | inl k =>
          if py_hashable k then
            id_set (if existsb (fun k' => py_eqb k' k) acc then acc else app acc [k]) cs'
          else inr (unhashable k)
      | inr e => inr e
      end
  end.

(** [ConversationStore.get_ids] *)
Definition get_ids (table : list ConvRow) (ok : bool) (user_email : string)
    : PyResult (list pyval) :=
  id_set [] (get_conversations table ok user_email).

(** ** The read-only routes of [app.py] *)

(** [{c["id"]: c for c in genie.list_conversations()}] *)
Fixpoint build_lookup (acc : list (pyval * pyval)) (cs : list pyval)
    : PyResult (list (pyval * pyval)) :=
  match cs with
  | [] => inl acc
  | c :: cs' =>
      match py_getitem c "id" with
      | inl k => if py_hashable k then build_lookup (pdict_set k c acc) cs'
                 else inr (unhashable k)
      | inr e => inr e
      end
  end.

(** The body of [for conv in delta_conversations] in [GET /api/conversations]. *)
Definition enrich (genie_lookup : list (pyval * pyval)) (conv : pyval) : M pyval :=
  key <- lift_py (py_getitem conv "id");;
  genie_data <- (if py_hashable key
                 then ret (match pdict_lookup key genie_lookup with
                           | Some c => c
                           | None => PDict []
                           end)
                 else raise (unhashable key));;
  id <- lift_py (py_getitem conv "id");;
  title_g <- lift_py (py_get genie_data "title" PNone);;
  title <- (if py_truthy title_g then ret title_g else lift_py (py_getitem conv "title"));;
  created_at <- lift_py (py_getitem conv "created_at");;
  updated_g <- lift_py (py_get genie_data "updated_at" PNone);;
  updated_at <- (if py_truthy updated_g then ret updated_g
                 else lift_py (py_get conv "updated_at" PNone));;
  ret (PDict [("id", id); ("title", title); ("created_at", created_at);
              ("updated_at", updated_at)]).

(** [GET /api/conversations] *)
Definition api_list_conversations (ws : Workspace) (env : Env) (user_header : option string)
    (ok : bool) (table : list ConvRow) : M pyval :=
  match get_genie_client env with
  | None => ret not_configured
  | Some genie =>
      if conv_store env then
        let user_email := match user_header with Some u => u | None => "anonymous" end in
        let delta_conversations := get_conversations table ok user_email in
        genie_lookup <- try_except
                          (convs <- list_conversations ws genie;;
                           cs <- lift_py (py_iter convs);;
                           lift_py (build_lookup [] cs))
                          (fun _ => ret []);;
        conversations <- map_m (enrich genie_lookup) delta_conversations;;
        ret (PDict [("success", PBool true); ("conversations", PList conversations)])
      else
        conversations <- list_conversations ws genie;;
        ret (PDict [("success", PBool true); ("conversations", conversations)])
  end.

(** [GET /api/conversations/<conversation_id>/messages/<message_id>/result] *)
Definition api_get_query_result (ws : Workspace) (env : Env)
    (conversation_id message_id : pyval) : M pyval :=
  match get_genie_client env with
  | None => ret not_configured
  | Some genie =>
      result <- get_query_result ws genie conversation_id message_id;;
      has_error <- lift_py (py_has_key result "error");;
      if has_error then
        err <- lift_py (py_getitem result "error");;
        ret (PDict [("success", PBool false); ("error", err)])
      else lift_py (dict_merge [("success", PBool true)] result)
  end.

(** [POST /api/feedback] *)
Definition api_send_feedback (ws : Workspace) (env : Env) (data : pyval) : M pyval :=
  match get_genie_client env with
  | None => ret not_configured
  | Some genie =>
      conversation_id <- lift_py (py_get data "conversation_id" PNone);;
      message_id <- lift_py (py_get data "message_id" PNone);;
      rating <- lift_py (py_get data "rating" PNone);;
      if negb (forallb py_truthy [conversation_id; message_id; rating]) then
        ret (PDict [("success", PBool false); ("error", PStr "Missing required fields")])
      else
        success <- send_feedback ws genie conversation_id message_id rating;;
        ret (PDict [("success", PBool success)])
  end.

(** [GET /api/conversations/<conversation_id>/messages] *)
Definition api_get_conversation_messages (ws : Workspace) (env : Env)
    (conversation_id : pyval) : M pyval :=
  match get_genie_client env with
  | None => ret not_configured
  | Some genie =>
      r <- get_conversation_messages ws genie conversation_id;;
      let '(messages, error) := r in
      match error with
      | Some e =>
          if py_truthy (PStr e) then ret (PDict [("success", PBool false); ("error", PStr e)])
          else ret (PDict [("success", PBool true); ("messages", PList messages)])
      | None => ret (PDict [("success", PBool true); ("messages", PList messages)])
      end
  end.

(** ** Vocabulary of the properties *)

(** The three classes the polling engine tells apart, in the order of its
    [if] chain: success is tested before failure. *)
Inductive status_class : Type :=
| TerminalSuccess
| TerminalFailure
| NonTerminal.

Definition classify (status : string) : status_class :=
  if _is_terminal_success status then TerminalSuccess
  else if _is_terminal_failure status then TerminalFailure
  else NonTerminal.

(** The calls and sleeps of [_retry_with_backoff] when every attempt fails
    with a retryable error: [remaining] attempts from [attempt] on, the
    [d]-th random draw being the next one. *)
Fixpoint retry_trace (ws : Workspace) (op : string) (attempt remaining d : nat)
    : list event :=
  match remaining with
  | O => []
  | S O => [ECall op]
  | S remaining' =>
      ECall op :: ESleep (RETRY_BASE_DELAY * 2 ^ Z.of_nat attempt + uniform ws d)
      :: retry_trace ws op (S attempt) remaining' (S d)
  end.

Definition count_calls (tr : list event) : nat :=
  List.length (filter (fun ev => match ev with ECall _ => true | _ => false end) tr).

(** The most the retry executor can sleep from [attempt] on, with
    [uniform(0, 1) <= 1]. *)
Fixpoint retry_slack_from (attempt remaining : nat) : Z :=
  match remaining with
  | O => 0
  | S O => 0
  | S remaining' =>
      RETRY_BASE_DELAY * 2 ^ Z.of_nat attempt + 1000
      + retry_slack_from (S attempt) remaining'
  end.

Definition retry_slack (self : GenieClient) : Z := retry_slack_from 0 (max_retries self).

Definition timed_out_message (elapsed : Z) : string :=
  "Query timed out after " ++ format_0f elapsed ++ " seconds.".

(** The state of the world after [w], with [evs] logged and the clock moved
    by [dt]. *)
Definition advance (w : World) (dt : Z) (evs : list event) : World :=
  mkWorld (clock w + dt) (draws w) (app (trace w) evs).

(** *** SDK objects *)

Definition sdk_status (s : string) : pyval := PObj "MessageStatus" [("value", PStr s)].

(** A [GenieAttachment] with an optional SQL query and an optional text. *)
Definition sdk_attachment (query : option string) (text : option string) : pyval :=
  PObj "GenieAttachment"
    [("query", match query with
               | Some q => PObj "GenieQueryAttachment" [("query", PStr q)]
               | None => PNone
               end);
     ("text", match text with
              | Some c => PObj "TextAttachment" [("content", PStr c)]
              | None => PNone
              end)].

Definition sdk_message (id status : string) (ts : Z) (atts : list pyval) : pyval :=
  PObj "GenieMessage"
    [("message_id", PStr id); ("status", sdk_status status);
     ("attachments", PList atts); ("error", PNone);
     ("last_updated_timestamp", PInt ts)].

Definition sdk_column (name : pyval) (type_name : option string) : pyval :=
  PObj "ColumnInfo"
    [("name", name);
     ("type_name", match type_name with
                   | Some v => PObj "ColumnInfoTypeName" [("value", PStr v)]
                   | None => PNone
                   end)].

(** A [GenieGetMessageQueryResultResponse] whose statement has a manifest
    with the given columns, no inline rows ([result] absent or with
    [data_array=None]) and the given [statement_id]. *)
Definition sdk_query_result_no_rows (columns : list (pyval * option string))
    (total_row_count : pyval) (has_result : bool) (statement_id : pyval) : pyval :=
  PObj "GenieGetMessageQueryResultResponse"
    [("statement_response",
      PObj "StatementResponse"
        [("manifest",
          PObj "ResultManifest"
            [("schema", PObj "ResultSchema"
                          [("columns", PList (map (fun c => sdk_column (fst c) (snd c))
                                                  columns))]);
             ("total_row_count", total_row_count)]);
         ("result", if has_result then PObj "ResultData" [("data_array", PNone)]
                    else PNone);
         ("statement_id", statement_id)])].

Definition column_json (c : pyval * option string) : pyval :=
  PDict [("name", fst c);
         ("type", PStr (match snd c with Some v => v | None => "STRING" end))].

Definition dict_keys (d : pyval) : list string :=
  match d with
  | PDict kvs => map fst kvs
  | _ => []
  end.

(** *** Concrete conversations *)

Definition msg_original : pyval :=
  sdk_message "m0" "COMPLETED" 100 [sdk_attachment None (Some "original answer")].
Definition msg_refined : pyval :=
  sdk_message "m1" "COMPLETED" 200 [sdk_attachment None (Some "refined answer")].

(** A workspace whose conversation [c1] holds the original message [m0] and,
    from the first follow-up check on, the completed refinement [m1]; the
    listing answers [list_answer] at each clock reading. *)
Definition chain_workspace (list_answer : Z -> reply) : Workspace :=
  mkWorkspace
    (fun _ _ _ => Reply (PObj "GenieStartConversationResponse"
                           [("conversation_id", PStr "c1"); ("message_id", PStr "m0")]))
    (fun _ _ _ _ => Fail "create_message unused")
    (fun _ _ _ mid => if py_eqb mid (PStr "m0") then Reply msg_original
                      else Reply msg_refined)
    (fun t _ _ => list_answer t)
    (fun _ _ => Fail "unused") (fun _ _ _ _ => Fail "unused") (fun _ _ => Fail "unused")
    (fun _ _ _ _ _ => Fail "unused") (fun _ _ _ => Fail "unused")
    (fun _ => 500).

Definition both_messages : reply :=
  Reply (PObj "GenieListConversationMessagesResponse"
           [("messages", PList [msg_original; msg_refined])]).

(** The refinement stays the latest message for good. *)
Definition ws_stable_chain : Workspace := chain_workspace (fun _ => both_messages).

(** The listing fails with a permanent error after the first check. *)
Definition ws_listing_fails : Workspace :=
  chain_workspace (fun t => if t <? 4000 then both_messages
                            else Fail "PERMISSION_DENIED: listing not allowed").

Definition world0 : World := mkWorld 0 0 [].

(** The message of the follow-up scenario of the spec. *)
Definition revenue_message : pyval :=
  PObj "GenieMessage"
    [("status", sdk_status "COMPLETED");
     ("attachments",
      PList [sdk_attachment (Some "SELECT SUM(revenue) FROM sales")
                            (Some "Total revenue is $1.2M.");
             sdk_attachment None (Some "Would you like to see this by region?")])].

(** *** What the extractor makes of SDK attachments *)

(** An attachment as [(query, text)]. *)
Definition attachment_spec : Type := (option string * option string)%type.

Definition sdk_attachments (atts : list attachment_spec) : list pyval :=
  map (fun a => sdk_attachment (fst a) (snd a)) atts.

Definition query_texts_of (atts : list attachment_spec) : list string :=
  flat_map (fun a => match a with (Some _, Some c) => [c] | _ => [] end) atts.

Definition other_texts_of (atts : list attachment_spec) : list string :=
  flat_map (fun a => match a with (None, Some c) => [c] | _ => [] end) atts.

Definition last_query_from (acc : pyval) (atts : list attachment_spec) : pyval :=
  fold_left (fun acc a => match fst a with Some q => PStr q | None => acc end) atts acc.

(** The time [_retry_with_backoff] sleeps when every attempt fails with a
    retryable error. *)
Fixpoint retry_sleep_total (ws : Workspace) (attempt remaining d : nat) : Z :=
  match remaining with
  | O => 0
  | S O => 0
  | S remaining' =>
      RETRY_BASE_DELAY * 2 ^ Z.of_nat attempt + uniform ws d
      + retry_sleep_total ws (S attempt) remaining' (S d)
  end.

(** A workspace whose [get_message] always answers [m]. *)
Definition message_workspace (m : pyval) : Workspace :=
  mkWorkspace
    (fun _ _ _ => Fail "unused") (fun _ _ _ _ => Fail "unused")
    (fun _ _ _ _ => Reply m)
    (fun _ _ _ => Fail "unused") (fun _ _ => Fail "unused")
    (fun _ _ _ _ => Fail "unused") (fun _ _ => Fail "unused")
    (fun _ _ _ _ _ => Fail "unused") (fun _ _ _ => Fail "unused")
    (fun _ => 500).

Definition msg_cancelled : pyval := sdk_message "m0" "CANCELLED" 100 [].

(** Still running: the status of a message that has not finished yet. *)
Definition msg_executing : pyval := sdk_message "m0" "EXECUTING_QUERY" 100 [].

(** [m] never gets stuck, and every value it returns satisfies [P]. *)
Definition yields {A : Type} (P : A -> Prop) (m : M A) : Prop :=
  forall w, match fst (m w) with
            | Ok a => P a
            | Raise _ => True
            | Stuck => False
            end.

(** The two shapes of the dicts [get_query_result] answers. *)
Definition query_result_shape (d : pyval) : Prop :=
  dict_keys d = ["columns"; "rows"; "total_rows"] \/ dict_keys d = ["error"].

(** A workspace whose [get_message_query_result] always answers [r]. *)
Definition query_result_workspace (r : pyval) : Workspace :=
  mkWorkspace
    (fun _ _ _ => Fail "unused") (fun _ _ _ _ => Fail "unused")
    (fun _ _ _ _ => Fail "unused")
    (fun _ _ _ => Fail "unused") (fun _ _ => Fail "unused")
    (fun _ _ _ _ => Reply r) (fun _ _ => Fail "unused")
    (fun _ _ _ _ _ => Fail "unused") (fun _ _ _ => Fail "unused")
    (fun _ => 500).

(** A statement with a two-column manifest, [data_array=None] and no
    [statement_id]. *)
Definition revenue_columns_no_rows : pyval :=
  sdk_query_result_no_rows [(PStr "region", Some "STRING"); (PStr "revenue", Some "DOUBLE")]
                           (PInt 0) true PNone.

(** [resp] is a JSON answer with [success: true] naming conversation [cid]. *)
Definition successful_response_for (resp cid : pyval) : Prop :=
  py_dict_get resp "success" PNone = Some (PBool true)
  /\ py_dict_get resp "conversation_id" PNone = Some cid.

(** The columns of a ledger row other than [updated_at]. *)
Definition row_identity (r : ConvRow) : string * pyval * string * Z :=
  (row_user_email r, row_conversation_id r, row_title r, row_created_at r).

(** Ledger order of [get_conversations]: [updated_at] descending. *)
Definition updated_ge (a b : ConvRow) : Prop := row_updated_at b <= row_updated_at a.

(** Order of the integer sort keys of [sorted(..., key=...)]. *)
Definition key_le (key : pyval -> pyval) (a b : pyval) : Prop :=
  py_int_of (key a) <= py_int_of (key b).

Definition int_keyed (key : pyval -> pyval) (x : pyval) : Prop := exists z, key x = PInt z.

(** A value that is a Python dict. *)
Definition dictlike (v : pyval) : Prop := exists kvs, v = PDict kvs.

(** The ledger-sourced fields of a listing entry. *)
Definition listing_key (c : pyval) : option pyval * option pyval :=
  (py_dict_get c "id" PNone, py_dict_get c "created_at" PNone).

(** A workspace answering the listing calls and the deletion with the given
    replies. *)
Definition route_workspace (messages conversations deletion : reply) : Workspace :=
  mkWorkspace
    (fun _ _ _ => Fail "unused") (fun _ _ _ _ => Fail "unused")
    (fun _ _ _ _ => Fail "unused")
    (fun _ _ _ => messages) (fun _ _ => conversations)
    (fun _ _ _ _ => Fail "unused") (fun _ _ => Fail "unused")
    (fun _ _ _ _ _ => Fail "unused") (fun _ _ _ => deletion)
    (fun _ => 500).

(** A workspace whose every call fails with [e]. *)
Definition failing_workspace (e : string) : Workspace :=
  mkWorkspace
    (fun _ _ _ => Fail e) (fun _ _ _ _ => Fail e) (fun _ _ _ _ => Fail e)
    (fun _ _ _ => Fail e) (fun _ _ => Fail e) (fun _ _ _ _ => Fail e) (fun _ _ => Fail e)
    (fun _ _ _ _ _ => Fail e) (fun _ _ _ => Fail e)
    (fun _ => 500).

(** Conversation [c1] holds the completed message [m0] only; a follow-up
    question is posted as [m0] again. *)
Definition follow_up_workspace : Workspace :=
  mkWorkspace
    (fun _ _ _ => Fail "unused")
    (fun _ _ _ _ => Reply (PObj "GenieMessage" [("message_id", PStr "m0")]))
    (fun _ _ _ _ => Reply msg_original)
    (fun _ _ _ => Reply (PObj "GenieListConversationMessagesResponse"
                            [("messages", PList [msg_original])]))
    (fun _ _ => Fail "unused") (fun _ _ _ _ => Fail "unused") (fun _ _ => Fail "unused")
    (fun _ _ _ _ _ => Fail "unused") (fun _ _ _ => Fail "unused")
    (fun _ => 500).

(** A question [q] asked at [ts] (no answer attached yet). *)
Definition user_message (q : string) (ts : Z) : pyval :=
  PObj "GenieMessage" [("content", PStr q); ("created_timestamp", PInt ts)].

Definition analyst_rows : list ConvRow :=
  [mkConvRow "analyst@example.com" (PStr "c1") "Revenue by region" 10 40;
   mkConvRow "other@example.com" (PStr "c9") "Churn" 20 20;
   mkConvRow "analyst@example.com" (PStr "c2") "" 30 30].

Definition genie_conversation (id title : string) (created updated : Z) : pyval :=
  PObj "GenieConversation"
    [("conversation_id", PStr id); ("title", PStr title);
     ("created_timestamp", PInt created); ("last_updated_timestamp", PInt updated)].

(** The listing of conversation [c1] as the SDK answers it: a response
    object whose [messages] hold two questions asked at the same time and a
    later one, listed latest first. *)
Definition listing_messages : list pyval :=
  [user_message "And by product?" 300; user_message "What is total revenue?" 100;
   user_message "And by region?" 100].

Definition listing_response : pyval :=
  PObj "GenieListConversationMessagesResponse" [("messages", PList listing_messages)].

(** * Properties *)

(** ** Follow-up reconciliation on concrete conversations *)

(** C1: the original message [m0] completes, the refinement [m1] (newer
    timestamp, completed) appears before the first follow-up check, and
    nothing newer appears afterwards.  The reconciler counts six stable
    checks after adopting [m1], returns [None] at the chain-stable threshold,
    and [ask] answers with the ORIGINAL message [m0] and its content, not with
    the refinement. *)
Theorem chain_stable_follow_up_is_dropped :
  fst (_wait_for_final_message ws_stable_chain (default_client "sp")
         (PStr "c1") (PStr "m0") 0 world0) = Ok None
  /\ fst (ask ws_stable_chain (default_client "sp") "What is total revenue?" world0)
     = Ok (mkGenieResult true "original answer" None PNone None (Some 0)
                         (PStr "c1") (PStr "m0")).
Proof. split; vm_compute; reflexivity. Qed.

(** C3 (counterexample): the refinement [m1] is adopted at the first
    follow-up check and the listing fails with a permanent error at the
    second.  The reconciler does not return [None]: it leaves the loop and
    returns the re-fetched refinement. *)
Lemma listing_failure_after_adoption_returns_follow_up :
  _wait_for_final_message ws_listing_fails (default_client "sp")
    (PStr "c1") (PStr "m0") 0 world0
  = (Ok (Some (mkGenieResult true "refined answer" None PNone None (Some 6000)
                             (PStr "c1") (PStr "m1"))),
     mkWorld 6000 0 [ESleep 3000; ECall "list_conversation_messages";
                     ESleep 3000; ECall "list_conversation_messages";
                     ECall "get_message"]).
Proof. vm_compute; reflexivity. Qed.

(** ** Result Extractor *)

(** C2 (counterexample): the scenario of the spec.  The trailing question
    "Would you like to see this by region?" stays at the end of
    [raw_response]; [GenieResult] has no follow-up field to receive it. *)
Lemma follow_up_question_stays_in_answer :
  raw_response (_extract_result revenue_message)
  = "Total revenue is $1.2M." ++ NEWLINE ++ "Would you like to see this by region?".
Proof. vm_compute; reflexivity. Qed.

Lemma fold_extract_attachment (atts : list attachment_spec) :
  forall qs os sql,
    fold_left extract_attachment (sdk_attachments atts) (map PStr qs, map PStr os, sql)
    = (map PStr (app qs (query_texts_of atts)), map PStr (app os (other_texts_of atts)),
       last_query_from sql atts).
Proof.
  induction atts as [| [q t] atts IH]; intros qs os sql; simpl.
  - rewrite !app_nil_r. reflexivity.
  - destruct q as [q |], t as [c |]; simpl; unfold py_getattr, py_attr; simpl.
    + change [PStr c] with (map PStr [c]). rewrite <- map_app, IH, <- app_assoc. reflexivity.
    + rewrite IH. reflexivity.
    + change [PStr c] with (map PStr [c]). rewrite <- map_app, IH, <- app_assoc. reflexivity.
    + rewrite IH. reflexivity.
Qed.

Lemma py_join_items_strs (l : list string) :
  forall i, py_join_items i (map PStr l) = inl l.
Proof.
  induction l as [| s l IH]; intros i; simpl; [reflexivity | rewrite IH; reflexivity].
Qed.

Lemma py_join_strs (sep : string) (l : list string) :
  py_join sep (map PStr l) = inl (join sep l).
Proof. unfold py_join. rewrite py_join_items_strs. reflexivity. Qed.

(** C2 (amended): the extractor does not split off a follow-up question.  For
    a message whose attachments are SDK attachments, [raw_response] is the
    texts of the attachments with a query followed by the texts of the other
    attachments, joined by newlines and stripped; whatever question ends the
    commentary stays at the end of [raw_response], and the result carries no
    follow-up field.  [sql_query] is the query of the last query attachment. *)
Theorem extract_result_concatenates_texts (message : pyval) (atts : list attachment_spec)
    (Hatts : py_attr message "attachments" = Some (PList (sdk_attachments atts))) :
  _extract_result message
  = mkGenieResult true
      (strip (join NEWLINE (app (query_texts_of atts) (other_texts_of atts))))
      None (last_query_from PNone atts) None None PNone PNone.
Proof.
  unfold _extract_result, extract_body, py_hasattr, py_getattr.
  rewrite Hatts. simpl.
  destruct atts as [| a atts'] eqn:E.
  - reflexivity.
  - rewrite <- E. simpl.
    change (@nil pyval) with (map PStr []).
    rewrite fold_extract_attachment. simpl.
    assert (Hc : match sdk_attachments atts with [] => false | _ :: _ => true end = true)
      by (rewrite E; reflexivity).
    rewrite Hc, <- map_app, py_join_strs. reflexivity.
Qed.

Lemma extract_result_concatenates_texts_witness :
  py_attr revenue_message "attachments"
    = Some (PList (sdk_attachments [(Some "SELECT SUM(revenue) FROM sales",
                                     Some "Total revenue is $1.2M.");
                                    (None, Some "Would you like to see this by region?")]))
  /\ _extract_result revenue_message
     = mkGenieResult true
         (strip (join NEWLINE ["Total revenue is $1.2M.";
                               "Would you like to see this by region?"]))
         None (PStr "SELECT SUM(revenue) FROM sales") None None PNone PNone.
Proof.
  split.
  - reflexivity.
  - exact (extract_result_concatenates_texts revenue_message
             [(Some "SELECT SUM(revenue) FROM sales", Some "Total revenue is $1.2M.");
              (None, Some "Would you like to see this by region?")] eq_refl).
Defined.

(** ** Transient Failure Classifier and Retry Executor *)

Lemma prefix_map (f : ascii -> ascii) (needle hay : string) :
  String.prefix needle hay = true ->
  String.prefix (string_map f needle) (string_map f hay) = true.
Proof.
  revert hay; induction needle as [| c n IH]; intros hay H;
    [destruct hay; reflexivity |].
  destruct hay as [| c' h]; [discriminate |].
  simpl in *. destruct (ascii_dec c c') as [-> | Hne]; [| discriminate].
  destruct (ascii_dec (f c') (f c')) as [_ | Hne]; [apply IH; exact H | congruence].
Qed.

Lemma str_contains_map (f : ascii -> ascii) (hay needle : string) :
  str_contains hay needle = true ->
  str_contains (string_map f hay) (string_map f needle) = true.
Proof.
  induction hay as [| c h IH]; intros H.
  - destruct needle; [reflexivity | discriminate].
  - change (str_contains (String c h) needle) with
      (String.prefix needle (String c h) || str_contains h needle) in H.
    change (str_contains (string_map f (String c h)) (string_map f needle)) with
      (String.prefix (string_map f needle) (string_map f (String c h))
       || str_contains (string_map f h) (string_map f needle)).
    apply orb_true_iff in H as [H | H].
    + rewrite (prefix_map f needle (String c h) H). reflexivity.
    + rewrite (IH H). apply orb_true_r.
Qed.

Lemma retry_loop_non_retryable (ws : Workspace) (self : GenieClient) {A : Type}
    (func : M A) (attempt remaining : nat) (last : option string) (w w' : World)
    (e : string) :
  func w = (Raise e, w') -> _is_retryable_error e = false ->
  retry_loop ws self func attempt (S remaining) last w = (Raise e, w').
Proof.
  intros Hf He. simpl. unfold try_except. rewrite Hf, He. reflexivity.
Qed.

Lemma retry_trace_SS (ws : Workspace) (op : string) (attempt n d : nat) :
  retry_trace ws op attempt (S (S n)) d
  = ECall op :: ESleep (RETRY_BASE_DELAY * 2 ^ Z.of_nat attempt + uniform ws d)
    :: retry_trace ws op (S attempt) (S n) (S d).
Proof. reflexivity. Qed.

Lemma retry_sleep_total_SS (ws : Workspace) (attempt n d : nat) :
  retry_sleep_total ws attempt (S (S n)) d
  = RETRY_BASE_DELAY * 2 ^ Z.of_nat attempt + uniform ws d
    + retry_sleep_total ws (S attempt) (S n) (S d).
Proof. reflexivity. Qed.

Lemma retry_loop_all_retryable (ws : Workspace) (self : GenieClient) (op : string)
    (f : Z -> reply) (g : Z -> string) :
  (forall t, f t = Fail (g t)) ->
  (forall t, _is_retryable_error (g t) = true) ->
  (forall n, 0 <= uniform ws n) ->
  forall n attempt last w,
    (attempt + n = max_retries self)%nat -> (1 <= n)%nat ->
    retry_loop ws self (remote op f) attempt n last w
    = (Raise (g (clock w + retry_sleep_total ws attempt n (draws w))),
       mkWorld (clock w + retry_sleep_total ws attempt n (draws w))
               (draws w + (n - 1))
               (app (trace w) (retry_trace ws op attempt n (draws w)))).
Proof.
  intros Hf Hg Hu. induction n as [| n IH]; intros attempt last w Hsum Hn; [lia |].
  destruct w as [c dr tr].
  cbn [retry_loop]. unfold try_except, remote at 1. rewrite Hf, Hg.
  cbn [negb clock draws trace].
  destruct n as [| n'].
  - assert (Hlt : (attempt <? max_retries self - 1)%nat = false)
      by (apply Nat.ltb_ge; lia).
    rewrite Hlt. cbn [bind ret retry_loop raise clock draws trace retry_sleep_total retry_trace].
    rewrite !Z.add_0_r, Nat.add_0_r. reflexivity.
  - assert (Hlt : (attempt <? max_retries self - 1)%nat = true)
      by (apply Nat.ltb_lt; lia).
    rewrite Hlt.
    assert (Hd : (RETRY_BASE_DELAY * 2 ^ Z.of_nat attempt + uniform ws dr <? 0) = false).
    { apply Z.ltb_ge. pose proof (Hu dr).
      assert (0 <= 2 ^ Z.of_nat attempt) by (apply Z.pow_nonneg; lia).
      unfold RETRY_BASE_DELAY. lia. }
    unfold bind, random_uniform, sleep. cbv beta iota zeta. cbn [clock draws trace].
    rewrite Hd. rewrite IH by lia.
    rewrite retry_trace_SS, retry_sleep_total_SS. cbn [clock draws trace].
    rewrite <- !app_assoc. cbn [app].
    f_equal; [f_equal; f_equal; lia | f_equal; [lia | lia]].
Qed.

Lemma retry_loop_non_retryable_after (ws : Workspace) (self : GenieClient) (op : string)
    (f : Z -> reply) (g : nat -> string) :
  (forall n, 0 <= uniform ws n) ->
  forall k n attempt last w,
    (attempt + n = max_retries self)%nat -> (k < n)%nat ->
    (forall i, (i <= k)%nat ->
       f (clock w + retry_sleep_total ws attempt (S i) (draws w)) = Fail (g i)) ->
    (forall i, (i < k)%nat -> _is_retryable_error (g i) = true) ->
    _is_retryable_error (g k) = false ->
    retry_loop ws self (remote op f) attempt n last w
    = (Raise (g k),
       mkWorld (clock w + retry_sleep_total ws attempt (S k) (draws w)) (draws w + k)
               (app (trace w) (retry_trace ws op attempt (S k) (draws w)))).
Proof.
  intros Hu k. revert g. induction k as [| k IH]; intros g n attempt last w Hsum Hk Hf Hr Hn.
  - destruct n as [| n']; [lia |].
    assert (H0 := Hf 0%nat (le_n 0)). cbn [retry_sleep_total] in H0.
    rewrite Z.add_0_r in H0.
    cbn [retry_loop]. unfold try_except, remote at 1. rewrite H0, Hn.
    cbn [negb retry_sleep_total retry_trace]. unfold raise.
    destruct w as [c dr tr]. cbn [clock draws trace].
    rewrite Z.add_0_r, Nat.add_0_r. reflexivity.
  - destruct n as [| n']; [lia |].
    destruct w as [c dr tr].
    assert (H0 := Hf 0%nat (Nat.le_0_l _)). cbn [retry_sleep_total clock draws] in H0.
    rewrite Z.add_0_r in H0.
    assert (Hr0 := Hr 0%nat (Nat.lt_0_succ _)).
    cbn [retry_loop]. unfold try_except, remote at 1. cbn [clock draws trace].
    rewrite H0, Hr0. cbn [negb].
    assert (Hlt : (attempt <? max_retries self - 1)%nat = true)
      by (apply Nat.ltb_lt; lia).
    rewrite Hlt.
    assert (Hd : (RETRY_BASE_DELAY * 2 ^ Z.of_nat attempt + uniform ws dr <? 0) = false).
    { apply Z.ltb_ge. pose proof (Hu dr).
      assert (0 <= 2 ^ Z.of_nat attempt) by (apply Z.pow_nonneg; lia).
      unfold RETRY_BASE_DELAY. lia. }
    unfold bind, random_uniform, sleep. cbv beta iota zeta. cbn [clock draws trace].
    rewrite Hd.
    set (d := RETRY_BASE_DELAY * 2 ^ Z.of_nat attempt + uniform ws dr).
    rewrite (IH (fun i => g (S i)) n' (S attempt) (Some (g 0%nat))
               (mkWorld (c + d) (S dr)
                        (app (app tr [ECall op]) [ESleep d]))).
    + rewrite retry_trace_SS, retry_sleep_total_SS. cbn [clock draws trace].
      rewrite <- !app_assoc. cbn [app]. subst d.
      f_equal; f_equal; lia.
    + lia.
    + lia.
    + intros i Hi. cbn [clock draws].
      assert (Hi' := Hf (S i) ltac:(lia)).
      rewrite retry_sleep_total_SS in Hi'. cbn [clock draws] in Hi'. fold d in Hi'.
      rewrite <- Hi'. f_equal. lia.
    + intros i Hi. apply Hr. lia.
    + exact Hn.
Qed.

Lemma count_calls_retry_trace (ws : Workspace) (op : string) (n attempt d : nat) :
  count_calls (retry_trace ws op attempt n d) = n.
Proof.
  revert attempt d; induction n as [| n IH]; intros attempt d; [reflexivity |].
  destruct n as [| n']; [reflexivity |].
  rewrite retry_trace_SS. unfold count_calls in *. cbn [filter List.length].
  rewrite IH. reflexivity.
Qed.

Lemma retryable_of_503 (e : string) :
  str_contains e "503" = true -> _is_retryable_error e = true.
Proof.
  intros H. unfold _is_retryable_error. apply existsb_exists.
  exists "503". split; [simpl; tauto |].
  exact (str_contains_map ascii_lower e "503" H).
Qed.

(** C5: the Retry Executor. A non-retryable failure of the wrapped call is
    re-raised at once, from the world the call left (no sleep, no further
    call). When every attempt of an SDK call fails with a retryable error,
    the call is made exactly [max_retries] times (3 for the default client),
    with a sleep of [1000 * 2 ^ attempt] ms plus the jitter draw between two
    attempts, and the error of the last attempt is raised. When the first [k]
    attempts fail with retryable errors and attempt [k+1] fails with a
    non-retryable one, that error is raised right after that call: the trace
    ends with the call, with no sleep and no further attempt. An error that
    contains "503" is retryable; one naming none of the indicators is not. *)
Theorem retry_with_backoff_raises_iff (ws : Workspace) (self : GenieClient) :
  (forall (A : Type) (func : M A) (w w' : World) (e : string),
     func w = (Raise e, w') -> _is_retryable_error e = false ->
     (1 <= max_retries self)%nat ->
     _retry_with_backoff ws self func w = (Raise e, w'))
  /\
  (forall (op : string) (f : Z -> reply) (g : Z -> string) (w : World),
     (1 <= max_retries self)%nat ->
     (forall n, 0 <= uniform ws n) ->
     (forall t, f t = Fail (g t)) ->
     (forall t, _is_retryable_error (g t) = true) ->
     let total := retry_sleep_total ws 0 (max_retries self) (draws w) in
     let tr := retry_trace ws op 0 (max_retries self) (draws w) in
     _retry_with_backoff ws self (remote op f) w
     = (Raise (g (clock w + total)),
        mkWorld (clock w + total) (draws w + (max_retries self - 1)) (app (trace w) tr))
     /\ count_calls tr = max_retries self)
  /\
  (forall (op : string) (f : Z -> reply) (g : nat -> string) (k : nat) (w : World),
     (k < max_retries self)%nat ->
     (forall n, 0 <= uniform ws n) ->
     (forall i, (i <= k)%nat ->
        f (clock w + retry_sleep_total ws 0 (S i) (draws w)) = Fail (g i)) ->
     (forall i, (i < k)%nat -> _is_retryable_error (g i) = true) ->
     _is_retryable_error (g k) = false ->
     _retry_with_backoff ws self (remote op f) w
     = (Raise (g k),
        mkWorld (clock w + retry_sleep_total ws 0 (S k) (draws w)) (draws w + k)
                (app (trace w) (retry_trace ws op 0 (S k) (draws w)))))
  /\ (forall e, str_contains e "503" = true -> _is_retryable_error e = true)
  /\ _is_retryable_error "invalid argument: bad space id" = false
  /\ max_retries (default_client "") = 3%nat.
Proof.
  split; [| split; [| split; [| split; [| split]]]].
  - intros A func w w' e Hf He Hm. unfold _retry_with_backoff.
    destruct (max_retries self) as [| r] eqn:E; [lia |].
    exact (retry_loop_non_retryable ws self func 0 r None w w' e Hf He).
  - intros op f g w Hm Hu Hf Hg total tr. split.
    + unfold _retry_with_backoff.
      exact (retry_loop_all_retryable ws self op f g Hf Hg Hu
               (max_retries self) 0 None w eq_refl Hm).
    + apply count_calls_retry_trace.
  - intros op f g k w Hk Hu Hf Hr Hn. unfold _retry_with_backoff.
    exact (retry_loop_non_retryable_after ws self op f g Hu k (max_retries self) 0 None w
             eq_refl Hk Hf Hr Hn).
  - exact retryable_of_503.
  - vm_compute. reflexivity.
  - reflexivity.
Qed.

Lemma retry_with_backoff_raises_iff_witness :
  _retry_with_backoff ws_stable_chain (default_client "sp")
    (remote "get_message" (fun _ => Fail "invalid argument: bad space id")) world0
  = (Raise "invalid argument: bad space id", mkWorld 0 0 [ECall "get_message"])
  /\
  _retry_with_backoff ws_stable_chain (default_client "sp")
    (remote "get_message" (fun _ => Fail "503 Service Unavailable")) world0
  = (Raise "503 Service Unavailable",
     mkWorld 4000 2 [ECall "get_message"; ESleep 1500; ECall "get_message";
                     ESleep 2500; ECall "get_message"])
  /\
  _retry_with_backoff ws_stable_chain (default_client "sp")
    (remote "get_message" (fun t => if t <? 1 then Fail "503 Service Unavailable"
                                     else Fail "invalid argument: bad space id")) world0
  = (Raise "invalid argument: bad space id",
     mkWorld 1500 1 [ECall "get_message"; ESleep 1500; ECall "get_message"]).
Proof.
  destruct (retry_with_backoff_raises_iff ws_stable_chain (default_client "sp"))
    as [H1 [H2 [H3 _]]].
  split; [| split].
  3: { rewrite (H3 "get_message" _
                  (fun i => match i with
                            | O => "503 Service Unavailable"
                            | S _ => "invalid argument: bad space id"
                            end) 1%nat world0).
       - vm_compute. reflexivity.
       - vm_compute. lia.
       - intros n. vm_compute. discriminate.
       - intros i Hi. destruct i as [| [| i]]; [reflexivity | reflexivity | lia].
       - intros i Hi. destruct i as [| i]; [vm_compute; reflexivity | lia].
       - vm_compute. reflexivity. }
  - apply (H1 pyval _ world0 (mkWorld 0 0 [ECall "get_message"])).
    + reflexivity.
    + vm_compute. reflexivity.
    + vm_compute. lia.
  - destruct (H2 "get_message" (fun _ => Fail "503 Service Unavailable")
                (fun _ => "503 Service Unavailable") world0) as [H _].
    + vm_compute. lia.
    + intros n. vm_compute. discriminate.
    + intros t. reflexivity.
    + intros t. vm_compute. reflexivity.
    + rewrite H. vm_compute. reflexivity.
Defined.

(** ** Polling Engine: one iteration *)

Lemma retry_loop_ok (ws : Workspace) (self : GenieClient) {A : Type}
    (func : M A) (attempt remaining : nat) (last : option string) (w w' : World) (a : A) :
  func w = (Ok a, w') ->
  retry_loop ws self func attempt (S remaining) last w = (Ok a, w').
Proof.
  intros Hf. cbn [retry_loop]. unfold try_except. rewrite Hf. reflexivity.
Qed.

Lemma retry_get_msg_reply (ws : Workspace) (self : GenieClient) (cid mid m : pyval)
    (w : World) :
  (1 <= max_retries self)%nat ->
  get_message ws (clock w) (space_id self) cid mid = Reply m ->
  _retry_with_backoff ws self (get_msg ws self cid mid) w
  = (Ok m, mkWorld (clock w) (draws w) (app (trace w) [ECall "get_message"])).
Proof.
  intros Hm Hg. unfold _retry_with_backoff.
  destruct (max_retries self) as [| r]; [lia |].
  apply retry_loop_ok. unfold get_msg, remote. rewrite Hg. reflexivity.
Qed.

Section PollStep.

Variable ws : Workspace.
Variable self : GenieClient.
Variable wait_final : pyval -> pyval -> Z -> M (option GenieResult).
Variable check_follow_ups : bool.
Variables (cid mid m : pyval) (start iv : Z) (w : World).
Hypothesis Hbudget : clock w - start < timeout_seconds self.
Hypothesis Hretries : (1 <= max_retries self)%nat.
Hypothesis Hreply : get_message ws (clock w) (space_id self) cid mid = Reply m.

Lemma poll_loop_fetch (fuel : nat) :
  poll_loop ws self wait_final check_follow_ups (S fuel) cid mid start iv w
  = (let status := _get_status_string m in
     let elapsed := clock w - start in
     if _is_terminal_success status then
       bind (if check_follow_ups then wait_final cid mid start else ret None)
            (fun final =>
               match final with
               | Some r => ret r
               | None => ret (set_meta (_extract_result m) elapsed cid mid)
               end)
     else if _is_terminal_failure status then
       ret (failed_result (py_str (py_getattr m "error" (PStr ("Query " ++ status))))
                          elapsed cid mid)
     else
       sleep iv;;;
       poll_loop ws self wait_final check_follow_ups fuel cid mid start
                 (_get_next_poll_interval self iv))
    (mkWorld (clock w) (draws w) (app (trace w) [ECall "get_message"])).
Proof.
  cbn [poll_loop]. unfold bind at 1, now at 1. cbv beta iota.
  apply Z.ltb_lt in Hbudget. rewrite Hbudget.
  unfold bind at 1, try_except at 1, bind at 1.
  rewrite (retry_get_msg_reply ws self cid mid m w Hretries Hreply).
  reflexivity.
Qed.

End PollStep.

(** ** Terminal failure *)

Lemma Z_to_string_nonempty (z : Z) : Z_to_string z <> "".
Proof.
  unfold Z_to_string. destruct z as [| p | p]; cbn; try discriminate.
  unfold NilEmpty.string_of_uint.
  destruct (Pos.to_uint p) eqn:E; try discriminate.
  exfalso. exact (DecimalPos.Unsigned.to_uint_nonnil p E).
Qed.

Lemma py_repr_nonempty (v : pyval) : py_repr v <> "".
Proof.
  destruct v as [| [] | z | s | xs | kvs | c fs]; cbn; try discriminate.
  - apply Z_to_string_nonempty.
  - destruct c; discriminate.
Qed.

Lemma py_str_nonempty (v : pyval) : v <> PStr "" -> py_str v <> "".
Proof.
  intros H. unfold py_str.
  destruct v as [| b | z | s | xs | kvs | c fs]; try exact (py_repr_nonempty _).
  intros E. subst. apply H. reflexivity.
Qed.

(** C6: at any iteration of the poll loop before the deadline, when the
    message fetched is classified terminal-failure (e.g. CANCELLED), the
    loop returns a failed result whose error is [str] of the message's
    [error] attribute, or "Query <status>" when it has none; the only call
    made is that [get_message] (no listing of the conversation), and the
    follow-up check [wait_final] is not consulted even when follow-ups are
    enabled. The error is non-empty unless the message reports the empty
    string as its error. *)
Theorem terminal_failure_returns_failed_result (ws : Workspace) (self : GenieClient)
    (wait_final : pyval -> pyval -> Z -> M (option GenieResult)) (check_follow_ups : bool)
    (fuel : nat) (cid mid m : pyval) (start iv : Z) (w : World) :
  clock w - start < timeout_seconds self ->
  (1 <= max_retries self)%nat ->
  get_message ws (clock w) (space_id self) cid mid = Reply m ->
  classify (_get_status_string m) = TerminalFailure ->
  let err := py_str (py_getattr m "error" (PStr ("Query " ++ _get_status_string m))) in
  poll_loop ws self wait_final check_follow_ups (S fuel) cid mid start iv w
  = (Ok (failed_result err (clock w - start) cid mid),
     mkWorld (clock w) (draws w) (app (trace w) [ECall "get_message"]))
  /\ success (failed_result err (clock w - start) cid mid) = false
  /\ (py_attr m "error" <> Some (PStr "") -> err <> "").
Proof.
  intros Hb Hr Hg Hc err.
  rewrite (poll_loop_fetch ws self wait_final check_follow_ups cid mid m start iv w Hb Hr Hg).
  unfold classify in Hc. cbv zeta.
  destruct (_is_terminal_success (_get_status_string m)); [discriminate |].
  destruct (_is_terminal_failure (_get_status_string m)); [| discriminate].
  split; [reflexivity | split; [reflexivity |]].
  intros He. unfold err, py_getattr. destruct (py_attr m "error") as [v |] eqn:E.
  - apply py_str_nonempty. intros ->. apply He; reflexivity.
  - cbn. discriminate.
Qed.

Lemma terminal_failure_returns_failed_result_witness :
  poll_loop (message_workspace msg_cancelled) (default_client "sp")
            (fun _ _ _ => stuck) true 5 (PStr "c1") (PStr "m0") 0 1000 world0
  = (Ok (failed_result "None" 0 (PStr "c1") (PStr "m0")), mkWorld 0 0 [ECall "get_message"]).
Proof.
  pose proof (terminal_failure_returns_failed_result (message_workspace msg_cancelled)
                (default_client "sp") (fun _ _ _ => stuck) true 4 (PStr "c1") (PStr "m0")
                msg_cancelled 0 1000 world0) as H.
  cbv zeta in H. destruct H as [H _].
  - vm_compute. reflexivity.
  - vm_compute. lia.
  - reflexivity.
  - vm_compute. reflexivity.
  - rewrite H. vm_compute. reflexivity.
Defined.

(** ** Terminal State Evaluator *)

(** C7 (counterexample): a status that contains a failure token is not
    always classified terminal-failure: success is tested first, so a
    status containing both COMPLETED and FAILED is terminal-success. *)
Theorem completed_and_failed_status_is_success :
  classify (_get_status_string (sdk_message "m0" "COMPLETED_WITH_FAILED_STEPS" 100 []))
    = TerminalSuccess
  /\ ~ (forall s : string,
          existsb (fun t => str_contains (upper s) t) TERMINAL_FAILURE_STATES = true ->
          classify (_get_status_string (sdk_message "m0" s 100 [])) = TerminalFailure).
Proof.
  split.
  - vm_compute. reflexivity.
  - intros H. specialize (H "COMPLETED_WITH_FAILED_STEPS" eq_refl).
    vm_compute in H. discriminate H.
Qed.

Lemma poll_loop_non_terminal (ws : Workspace) (self : GenieClient)
    (wait_final : pyval -> pyval -> Z -> M (option GenieResult)) (check_follow_ups : bool)
    (fuel : nat) (cid mid m : pyval) (start iv : Z) (w : World) :
  clock w - start < timeout_seconds self ->
  (1 <= max_retries self)%nat ->
  get_message ws (clock w) (space_id self) cid mid = Reply m ->
  classify (_get_status_string m) = NonTerminal ->
  0 <= iv ->
  poll_loop ws self wait_final check_follow_ups (S fuel) cid mid start iv w
  = poll_loop ws self wait_final check_follow_ups fuel cid mid start
      (_get_next_poll_interval self iv)
      (mkWorld (clock w + iv) (draws w) (app (trace w) [ECall "get_message"; ESleep iv])).
Proof.
  intros Hb Hr Hg Hc Hiv.
  rewrite (poll_loop_fetch ws self wait_final check_follow_ups cid mid m start iv w Hb Hr Hg).
  unfold classify in Hc. cbv zeta.
  destruct (_is_terminal_success (_get_status_string m)); [discriminate |].
  destruct (_is_terminal_failure (_get_status_string m)); [discriminate |].
  unfold bind, sleep. cbn [clock draws trace].
  apply Z.ltb_ge in Hiv. rewrite Hiv. rewrite <- app_assoc. reflexivity.
Qed.

(** C7 (amended): the status is upper-cased (the enum's [value] when it has
    one), so the tests are case-insensitive and by substring. A status
    containing COMPLETED is terminal-success, whatever else it contains; one
    containing FAILED, CANCELLED, CANCELED or ABORTED but not COMPLETED is
    terminal-failure; every other status, unknown ones included, is
    non-terminal, and on it the poll loop sleeps the current interval and
    polls again with the next interval. *)
Theorem classify_status_amended :
  (forall (message : pyval) (s : string),
     py_attr message "status" = Some (PStr s)
     \/ py_attr message "status" = Some (sdk_status s) ->
     let u := upper s in
     let failure := existsb (fun t => str_contains u t) TERMINAL_FAILURE_STATES in
     _get_status_string message = u
     /\ (classify u = TerminalSuccess <-> str_contains u "COMPLETED" = true)
     /\ (classify u = TerminalFailure
         <-> str_contains u "COMPLETED" = false /\ failure = true)
     /\ (classify u = NonTerminal
         <-> str_contains u "COMPLETED" = false /\ failure = false))
  /\ (forall s : string, str_contains s "completed" = true ->
        classify (upper s) = TerminalSuccess)
  /\ (forall (ws : Workspace) (self : GenieClient)
        (wait_final : pyval -> pyval -> Z -> M (option GenieResult))
        (check_follow_ups : bool) (fuel : nat) (cid mid m : pyval) (start iv : Z)
        (w : World),
      clock w - start < timeout_seconds self ->
      (1 <= max_retries self)%nat ->
      get_message ws (clock w) (space_id self) cid mid = Reply m ->
      classify (_get_status_string m) = NonTerminal ->
      0 <= iv ->
      poll_loop ws self wait_final check_follow_ups (S fuel) cid mid start iv w
      = poll_loop ws self wait_final check_follow_ups fuel cid mid start
          (_get_next_poll_interval self iv)
          (mkWorld (clock w + iv) (draws w)
                   (app (trace w) [ECall "get_message"; ESleep iv]))).
Proof.
  split; [| split].
  - intros message s Hs u failure. split.
    + unfold _get_status_string. destruct Hs as [Hs | Hs]; rewrite Hs; reflexivity.
    + unfold classify, _is_terminal_success, _is_terminal_failure.
      fold failure. cbn [existsb TERMINAL_SUCCESS_STATES]. rewrite orb_false_r.
      destruct (str_contains u "COMPLETED"), failure;
        repeat split; intuition congruence.
  - intros s H. unfold classify, _is_terminal_success.
    cbn [existsb TERMINAL_SUCCESS_STATES].
    pose proof (str_contains_map ascii_upper s "completed" H) as H'.
    change (str_contains (upper s) "COMPLETED" = true) in H'.
    rewrite H'. reflexivity.
  - exact poll_loop_non_terminal.
Qed.

Lemma classify_status_amended_witness :
  _get_status_string msg_executing = "EXECUTING_QUERY"
  /\ classify "EXECUTING_QUERY" = NonTerminal
  /\ classify (upper "completed") = TerminalSuccess
  /\ poll_loop (message_workspace msg_executing) (default_client "sp")
       (fun _ _ _ => stuck) true 3 (PStr "c1") (PStr "m0") 0 1000 world0
     = poll_loop (message_workspace msg_executing) (default_client "sp")
         (fun _ _ _ => stuck) true 2 (PStr "c1") (PStr "m0") 0 2000
         (mkWorld 1000 0 [ECall "get_message"; ESleep 1000]).
Proof.
  destruct classify_status_amended as [H1 [H2 H3]].
  destruct (H1 msg_executing "EXECUTING_QUERY") as [Hs [_ [_ Hn]]].
  - right. reflexivity.
  - split; [rewrite Hs; reflexivity |]. split.
    + exact (proj2 Hn (conj eq_refl eq_refl)).
    + split.
      * apply H2. reflexivity.
      * apply (H3 (message_workspace msg_executing) (default_client "sp")
                 (fun _ _ _ => stuck) true 2%nat (PStr "c1") (PStr "m0") msg_executing
                 0 1000 world0).
        -- vm_compute. reflexivity.
        -- vm_compute. lia.
        -- reflexivity.
        -- vm_compute. reflexivity.
        -- lia.
Defined.

(** ** Follow-up Reconciler: a listing that fails or comes back empty *)

Section ListingStep.

Variable ws : Workspace.
Variable self : GenieClient.
Variables (cid original_id last_known_id : pyval) (stable : nat) (start : Z) (w : World).
Hypothesis Hbudget : clock w - start < timeout_seconds self.

Lemma follow_up_loop_listing (n : nat) :
  follow_up_loop ws self (S n) cid original_id last_known_id stable start w
  = bind (try_except
            (response <- _retry_with_backoff ws self (list_msgs ws self cid);;
             ret (Some response))
            (fun _ => ret None))
      (fun listed =>
         match listed with
         | None => ret (LBreak last_known_id)
         | Some response =>
             let items := if py_hasattr response "messages"
                          then py_getattr response "messages" PNone else response in
             if negb (py_truthy items) then ret (LBreak last_known_id)
             else
               latest_msg <- lift_py (py_max timestamp_key items);;
               let latest_id := py_or (py_getattr latest_msg "message_id" PNone)
                                      (py_getattr latest_msg "id" PNone) in
               if py_eqb latest_id last_known_id then
                 let consecutive_stable' := S stable in
                 let required := if py_eqb last_known_id original_id
                                 then FOLLOW_UP_INITIAL_STABLE_CHECKS
                                 else FOLLOW_UP_CHAIN_STABLE_CHECKS in
                 if (required <=? consecutive_stable')%nat then ret (LReturn None)
                 else follow_up_loop ws self n cid original_id last_known_id
                                     consecutive_stable' start
               else
                 let status := _get_status_string latest_msg in
                 if _is_terminal_failure status then ret (LReturn None)
                 else if _is_terminal_success status then
                   follow_up_loop ws self n cid original_id latest_id 0 start
                 else
                   result <- poll_no_follow_ups ws self cid latest_id start;;
                   if negb (success result) then ret (LReturn None)
                   else follow_up_loop ws self n cid original_id latest_id 0 start
         end)
      (mkWorld (clock w + FOLLOW_UP_SETTLE_SECONDS) (draws w)
               (app (trace w) [ESleep FOLLOW_UP_SETTLE_SECONDS])).
Proof.
  cbn [follow_up_loop]. unfold bind at 1, now at 1. cbv beta iota.
  assert (Hlt : (timeout_seconds self <=? clock w - start) = false)
    by (apply Z.leb_gt; exact Hbudget).
  rewrite Hlt. unfold bind at 1, sleep at 1. cbv beta iota. reflexivity.
Qed.

End ListingStep.

(** C3 (amended): in any state of the reconciliation loop before the
    deadline, a cycle whose listing fails after retries, or answers no
    messages, leaves the loop with the message id adopted so far. The code
    after the loop keeps the original (returns [None]) only when that id is
    the original one; when a follow-up had been adopted it re-fetches that
    follow-up and returns its extracted result, and returns [None] only if
    the re-fetch fails. *)
Theorem listing_failure_breaks_with_last_known (ws : Workspace) (self : GenieClient) :
  (forall (n : nat) (cid original_id last_known_id : pyval) (stable : nat) (start : Z)
          (w w2 : World),
     clock w - start < timeout_seconds self ->
     let w1 := mkWorld (clock w + FOLLOW_UP_SETTLE_SECONDS) (draws w)
                       (app (trace w) [ESleep FOLLOW_UP_SETTLE_SECONDS]) in
     ((exists e, _retry_with_backoff ws self (list_msgs ws self cid) w1 = (Raise e, w2))
      \/ (exists response,
            _retry_with_backoff ws self (list_msgs ws self cid) w1 = (Ok response, w2)
            /\ py_truthy (if py_hasattr response "messages"
                          then py_getattr response "messages" PNone
                          else response) = false)) ->
     follow_up_loop ws self (S n) cid original_id last_known_id stable start w
     = (Ok (LBreak last_known_id), w2))
  /\ (forall (cid original_id last_known_id : pyval) (start : Z) (w : World),
        py_eqb last_known_id original_id = true ->
        after_follow_up_loop ws self cid original_id last_known_id start w = (Ok None, w))
  /\ (forall (cid original_id last_known_id m : pyval) (start : Z) (w : World),
        py_eqb last_known_id original_id = false ->
        (1 <= max_retries self)%nat ->
        get_message ws (clock w) (space_id self) cid last_known_id = Reply m ->
        after_follow_up_loop ws self cid original_id last_known_id start w
        = (Ok (Some (set_meta (_extract_result m) (clock w - start) cid last_known_id)),
           mkWorld (clock w) (draws w) (app (trace w) [ECall "get_message"])))
  /\ (forall (cid original_id last_known_id : pyval) (start : Z) (w w2 : World) (e : string),
        py_eqb last_known_id original_id = false ->
        _retry_with_backoff ws self (get_msg ws self cid last_known_id) w = (Raise e, w2) ->
        after_follow_up_loop ws self cid original_id last_known_id start w = (Ok None, w2)).
Proof.
  split; [| split; [| split]].
  - intros n cid original_id last_known_id stable start w w2 Hb w1 Hcase.
    rewrite (follow_up_loop_listing ws self cid original_id last_known_id stable start w Hb n).
    fold w1. unfold bind at 1, try_except at 1, bind at 1.
    destruct Hcase as [[e He] | [response [Hr Hitems]]].
    + rewrite He. reflexivity.
    + rewrite Hr. cbv beta iota zeta delta [ret]. rewrite Hitems. reflexivity.
  - intros cid original_id last_known_id start w Heq.
    unfold after_follow_up_loop. rewrite Heq. reflexivity.
  - intros cid original_id last_known_id m start w Hneq Hr Hg.
    unfold after_follow_up_loop. rewrite Hneq. cbn [negb].
    unfold try_except, bind at 1.
    rewrite (retry_get_msg_reply ws self cid last_known_id m w Hr Hg). reflexivity.
  - intros cid original_id last_known_id start w w2 e Hneq Hr.
    unfold after_follow_up_loop. rewrite Hneq. cbn [negb].
    unfold try_except, bind at 1. rewrite Hr. reflexivity.
Qed.

Lemma listing_failure_breaks_with_last_known_witness :
  let w_mid := mkWorld 3000 0 [ESleep 3000; ECall "list_conversation_messages"] in
  let w2 := mkWorld 6000 0 [ESleep 3000; ECall "list_conversation_messages";
                            ESleep 3000; ECall "list_conversation_messages"] in
  follow_up_loop ws_listing_fails (default_client "sp") 19 (PStr "c1") (PStr "m0")
                 (PStr "m1") 0 0 w_mid
  = (Ok (LBreak (PStr "m1")), w2)
  /\ after_follow_up_loop ws_listing_fails (default_client "sp") (PStr "c1") (PStr "m0")
                          (PStr "m1") 0 w2
     = (Ok (Some (mkGenieResult true "refined answer" None PNone None (Some 6000)
                                (PStr "c1") (PStr "m1"))),
        mkWorld 6000 0 [ESleep 3000; ECall "list_conversation_messages";
                        ESleep 3000; ECall "list_conversation_messages";
                        ECall "get_message"]).
Proof.
  intros w_mid w2.
  destruct (listing_failure_breaks_with_last_known ws_listing_fails (default_client "sp"))
    as [A [_ [C _]]].
  split.
  - apply (A 18%nat (PStr "c1") (PStr "m0") (PStr "m1") 0%nat 0 w_mid w2).
    + vm_compute. reflexivity.
    + left. exists "PERMISSION_DENIED: listing not allowed". vm_compute. reflexivity.
  - assert (HC := C (PStr "c1") (PStr "m0") (PStr "m1") msg_refined 0 w2 eq_refl
                    ltac:(vm_compute; lia) eq_refl).
    rewrite HC. vm_compute. reflexivity.
Defined.

(** ** Polling Engine: the deadline *)

Lemma retry_slack_from_nonneg (attempt n : nat) : 0 <= retry_slack_from attempt n.
Proof.
  revert attempt. induction n as [| [| n] IH]; intros attempt; [reflexivity | reflexivity |].
  change (0 <= RETRY_BASE_DELAY * 2 ^ Z.of_nat attempt + 1000
               + retry_slack_from (S attempt) (S n)).
  assert (0 <= 2 ^ Z.of_nat attempt) by (apply Z.pow_nonneg; lia).
  specialize (IH (S attempt)). unfold RETRY_BASE_DELAY. lia.
Qed.

Lemma retry_loop_remote_bounds (ws : Workspace) (self : GenieClient) (op : string)
    (f : Z -> reply) :
  (forall n, 0 <= uniform ws n <= 1000) ->
  forall n attempt last w r w1,
    (attempt + n = max_retries self)%nat ->
    retry_loop ws self (remote op f) attempt n last w = (r, w1) ->
    clock w <= clock w1 <= clock w + retry_slack_from attempt n
    /\ match r with
       | Ok v => exists t, f t = Reply v
       | Raise _ => True
       | Stuck => False
       end.
Proof.
  intros Hu. induction n as [| n IH]; intros attempt last w r w1 Hsum Hr.
  - cbn [retry_loop] in Hr. destruct last; unfold raise in Hr; injection Hr as <- <-;
      cbn [retry_slack_from]; split; solve [lia | exact I].
  - pose proof (retry_slack_from_nonneg attempt (S n)) as Hs0.
    cbn [retry_loop] in Hr. unfold try_except, remote at 1 in Hr.
    destruct (f (clock w)) as [v | e] eqn:Ef.
    + injection Hr as <- <-. cbn [clock]. split; [lia |].
      exists (clock w). exact Ef.
    + cbn [clock draws trace] in Hr.
      destruct (_is_retryable_error e); cbn [negb] in Hr.
      * destruct n as [| n'].
        -- assert (Hlt : (attempt <? max_retries self - 1)%nat = false)
             by (apply Nat.ltb_ge; lia).
           rewrite Hlt in Hr. cbn in Hr. injection Hr as <- <-. cbn [clock].
           split; [lia | exact I].
        -- assert (Hlt : (attempt <? max_retries self - 1)%nat = true)
             by (apply Nat.ltb_lt; lia).
           rewrite Hlt in Hr.
           assert (Hp : 0 <= 2 ^ Z.of_nat attempt) by (apply Z.pow_nonneg; lia).
           pose proof (Hu (draws w)) as Hud.
           assert (Hd : (RETRY_BASE_DELAY * 2 ^ Z.of_nat attempt + uniform ws (draws w) <? 0)
                        = false).
           { apply Z.ltb_ge. unfold RETRY_BASE_DELAY. lia. }
           unfold bind, random_uniform, sleep in Hr. cbv beta iota zeta in Hr.
           cbn [clock draws trace] in Hr. rewrite Hd in Hr.
           destruct (IH (S attempt) (Some e) _ r w1 ltac:(lia) Hr) as [Hb Hm].
           split; [| exact Hm]. cbn [clock] in Hb.
           change (retry_slack_from attempt (S (S n')))
             with (RETRY_BASE_DELAY * 2 ^ Z.of_nat attempt + 1000
                   + retry_slack_from (S attempt) (S n')).
           unfold RETRY_BASE_DELAY in *. lia.
      * unfold raise in Hr. injection Hr as <- <-. cbn [clock]. split; [lia | exact I].
Qed.

Section Deadline.

Variable ws : Workspace.
Variable self : GenieClient.
Variable wait_final : pyval -> pyval -> Z -> M (option GenieResult).
Variable check_follow_ups : bool.
Variables (cid mid : pyval) (start : Z).
Hypothesis Huniform : forall n, 0 <= uniform ws n <= 1000.
Hypothesis Hnever : forall t m, get_message ws t (space_id self) cid mid = Reply m ->
                                classify (_get_status_string m) = NonTerminal.

Lemma poll_loop_deadline (k : nat) :
  forall (iv : Z) (w : World),
    1 <= iv <= max_poll_interval self ->
    0 <= clock w - start < timeout_seconds self + max_poll_interval self + retry_slack self ->
    Z.max 0 (timeout_seconds self - (clock w - start)) < Z.of_nat k ->
    exists w',
      poll_loop ws self wait_final check_follow_ups k cid mid start iv w
      = (Ok (failed_result (timed_out_message (clock w' - start)) (clock w' - start) cid mid),
         w')
      /\ timeout_seconds self <= clock w' - start < timeout_seconds self + max_poll_interval self + retry_slack self.
Proof.
  induction k as [| k IH]; intros iv w Hiv Hw Hk.
  - cbn in Hk. lia.
  - cbn [poll_loop]. unfold bind at 1, now at 1. cbv beta iota.
    destruct (clock w - start <? timeout_seconds self) eqn:Hb.
    + apply Z.ltb_lt in Hb.
      destruct (_retry_with_backoff ws self (get_msg ws self cid mid) w) as [r w1] eqn:Er.
      pose proof Er as Er'. unfold _retry_with_backoff, get_msg in Er'.
      destruct (retry_loop_remote_bounds ws self "get_message"
                  (fun t => get_message ws t (space_id self) cid mid) Huniform
                  (max_retries self) 0 None w r w1 eq_refl Er') as [Hc1 Hr].
      assert (Hiv0 : (iv <? 0) = false) by (apply Z.ltb_ge; lia).
      assert (Hnext : 1 <= _get_next_poll_interval self iv <= max_poll_interval self)
        by (unfold _get_next_poll_interval; lia).
      assert (Hslack : clock w1 - start + iv < timeout_seconds self + max_poll_interval self + retry_slack self).
      { unfold retry_slack. lia. }
      destruct r as [v | e |]; [| | contradiction].
      * destruct Hr as [t Ht]. pose proof (Hnever t v Ht) as Hc.
        unfold classify in Hc.
        unfold bind, try_except, now, ret, sleep. cbv beta iota zeta. rewrite Er.
        cbv beta iota zeta.
        destruct (_is_terminal_success (_get_status_string v)); [discriminate |].
        destruct (_is_terminal_failure (_get_status_string v)); [discriminate |].
        rewrite Hiv0. cbn [clock draws trace].
        apply IH; cbn [clock]; [exact Hnext | lia | lia].
      * unfold bind, try_except, now, ret, sleep. cbv beta iota zeta. rewrite Er.
        cbv beta iota zeta. rewrite Hiv0. cbn [clock draws trace].
        apply IH; cbn [clock]; [exact Hnext | lia | lia].
    + apply Z.ltb_ge in Hb. exists w. split; [reflexivity | lia].
Qed.

End Deadline.

Lemma prefix_app (needle a b : string) :
  String.prefix needle a = true -> String.prefix needle (a ++ b) = true.
Proof.
  revert a; induction needle as [| c n IH]; intros a H; [destruct (a ++ b); reflexivity |].
  destruct a as [| c' a]; [discriminate |].
  cbn in *. destruct (ascii_dec c c'); [apply IH; exact H | discriminate].
Qed.

Lemma str_contains_app_l (a b needle : string) :
  str_contains a needle = true -> str_contains (a ++ b) needle = true.
Proof.
  induction a as [| c a IH]; intros H.
  - destruct needle; [destruct b; reflexivity | discriminate].
  - change (str_contains (String c a) needle) with
      (String.prefix needle (String c a) || str_contains a needle) in H.
    change (str_contains (String c a ++ b) needle) with
      (String.prefix needle (String c (a ++ b)) || str_contains (a ++ b) needle).
    apply orb_true_iff in H as [H | H].
    + change (String c (a ++ b)) with (String c a ++ b).
      rewrite (prefix_app needle (String c a) b H). reflexivity.
    + rewrite (IH H). apply orb_true_r.
Qed.

Lemma timed_out_message_contains (elapsed : Z) :
  str_contains (timed_out_message elapsed) "timed out" = true.
Proof.
  unfold timed_out_message.
  change ("Query timed out after " ++ format_0f elapsed ++ " seconds.")
    with ("Query timed out" ++ (" after " ++ format_0f elapsed ++ " seconds.")).
  apply str_contains_app_l. reflexivity.
Qed.

(** C8: when no fetch of the message ever answers a terminal status, the
    Polling Engine (started before its deadline, with poll intervals of at
    least 1 ms and the jitter of [random.uniform(0, 1)]) ends with a failed
    result whose error says the query timed out and whose elapsed time is
    the time of the final deadline check: at least the timeout budget, and
    less than the budget plus the largest poll interval plus the most the
    retry executor can sleep (600 s, 60 s and 5 s for the default client). *)
Theorem poll_times_out_with_failed_result (ws : Workspace) (self : GenieClient)
    (check_follow_ups : bool) (cid mid : pyval) (start : Z) (w : World) :
  (forall n, 0 <= uniform ws n <= 1000) ->
  1 <= initial_poll_interval self <= max_poll_interval self ->
  (forall t m, get_message ws t (space_id self) cid mid = Reply m ->
               classify (_get_status_string m) = NonTerminal) ->
  0 <= clock w - start < timeout_seconds self ->
  exists w' r,
    _poll_for_result ws self cid mid start check_follow_ups w = (Ok r, w')
    /\ success r = false
    /\ error r = Some (timed_out_message (clock w' - start))
    /\ str_contains (timed_out_message (clock w' - start)) "timed out" = true
    /\ elapsed_seconds r = Some (clock w' - start)
    /\ timeout_seconds self <= clock w' - start
         < timeout_seconds self + max_poll_interval self + retry_slack self.
Proof.
  intros Hu Hiv Hnever Hw.
  destruct (poll_loop_deadline ws self (_wait_for_final_message ws self) check_follow_ups
              cid mid start Hu Hnever (poll_fuel self)
              (initial_poll_interval self) w) as [w' [Heq Hb]].
  - exact Hiv.
  - assert (0 <= retry_slack self) by apply retry_slack_from_nonneg. lia.
  - unfold poll_fuel. rewrite Nat2Z.inj_succ, Z2Nat.id by lia. lia.
  - exists w', (failed_result (timed_out_message (clock w' - start)) (clock w' - start) cid mid).
    split; [exact Heq |].
    split; [reflexivity |]. split; [reflexivity |].
    split; [apply timed_out_message_contains |].
    split; [reflexivity | exact Hb].
Qed.

Lemma poll_times_out_with_failed_result_witness :
  exists w' r,
    _poll_for_result (message_workspace msg_executing) (default_client "sp")
                     (PStr "c1") (PStr "m0") 0 true world0 = (Ok r, w')
    /\ success r = false
    /\ error r = Some (timed_out_message (clock w' - 0))
    /\ str_contains (timed_out_message (clock w' - 0)) "timed out" = true
    /\ elapsed_seconds r = Some (clock w' - 0)
    /\ timeout_seconds (default_client "sp") <= clock w' - 0
         < timeout_seconds (default_client "sp") + max_poll_interval (default_client "sp")
           + retry_slack (default_client "sp").
Proof.
  apply (poll_times_out_with_failed_result (message_workspace msg_executing)
           (default_client "sp") true (PStr "c1") (PStr "m0") 0 world0).
  - intros n. simpl. lia.
  - simpl. lia.
  - intros t m H. injection H as <-. vm_compute. reflexivity.
  - simpl. lia.
Defined.

(** ** Query Result Fetcher *)

Create HintDb yields.

Lemma yields_ret {A} (P : A -> Prop) (a : A) : P a -> yields P (ret a).
Proof. intros H w. exact H. Qed.

Lemma yields_raise {A} (P : A -> Prop) (e : string) : yields P (raise e).
Proof. intros w. exact I. Qed.

Lemma yields_bind {A B} (Q : A -> Prop) (P : B -> Prop) (m : M A) (k : A -> M B) :
  yields Q m -> (forall a, Q a -> yields P (k a)) -> yields P (bind m k).
Proof.
  intros Hm Hk w. unfold bind. specialize (Hm w).
  destruct (m w) as [[a | e |] w']; cbn in *; [exact (Hk a Hm w') | exact I | exact Hm].
Qed.

Lemma yields_bind_any {A B} (P : B -> Prop) (m : M A) (k : A -> M B) :
  yields (fun _ => True) m -> (forall a, yields P (k a)) -> yields P (bind m k).
Proof. intros Hm Hk. apply (yields_bind _ _ m k Hm). intros a _. apply Hk. Qed.

Lemma yields_try {A} (P : A -> Prop) (m : M A) (h : string -> M A) :
  yields P m -> (forall e, yields P (h e)) -> yields P (try_except m h).
Proof.
  intros Hm Hh w. unfold try_except. specialize (Hm w).
  destruct (m w) as [[a | e |] w']; cbn in *; [exact Hm | exact (Hh e w') | exact Hm].
Qed.

Lemma yields_true_attr (v : pyval) (name : string) : yields (fun _ => True) (attr v name).
Proof. unfold attr. destruct (py_attr v name); intros w; exact I. Qed.

Lemma yields_true_lift_py {A} (r : PyResult A) : yields (fun _ => True) (lift_py r).
Proof. unfold lift_py. destruct r; intros w; exact I. Qed.

Lemma yields_true_remote (op : string) (f : Z -> reply) : yields (fun _ => True) (remote op f).
Proof. intros w. unfold remote. destruct (f (clock w)); exact I. Qed.

Lemma yields_true_sleep (d : Z) : yields (fun _ => True) (sleep d).
Proof. intros w. unfold sleep. destruct (d <? 0); exact I. Qed.

Lemma yields_true_random_uniform (ws : Workspace) :
  yields (fun _ => True) (random_uniform ws).
Proof. intros w. exact I. Qed.

Lemma yields_retry_loop (ws : Workspace) (self : GenieClient) {A} (P : A -> Prop)
    (func : M A) :
  yields P func ->
  forall n attempt last, yields P (retry_loop ws self func attempt n last).
Proof.
  intros Hf. induction n as [| n IH]; intros attempt last.
  - destruct last; apply yields_raise.
  - cbn [retry_loop]. apply yields_try; [exact Hf |]. intros e.
    destruct (negb (_is_retryable_error e)); [apply yields_raise |].
    apply yields_bind_any; [| intros _; apply IH].
    destruct (attempt <? max_retries self - 1)%nat.
    + apply yields_bind_any; [apply yields_true_random_uniform |].
      intros a. apply yields_true_sleep.
    + apply yields_ret. exact I.
Qed.

Lemma yields_retry_with_backoff (ws : Workspace) (self : GenieClient) {A} (P : A -> Prop)
    (func : M A) :
  yields P func -> yields P (_retry_with_backoff ws self func).
Proof. intros Hf. apply yields_retry_loop. exact Hf. Qed.

Lemma yields_true_map_m {A B} (f : A -> M B) (xs : list A) :
  (forall x, yields (fun _ => True) (f x)) -> yields (fun _ => True) (map_m f xs).
Proof.
  intros Hf. induction xs as [| x xs IH]; cbn [map_m].
  - apply yields_ret. exact I.
  - apply yields_bind_any; [apply Hf |]. intros y.
    apply yields_bind_any; [exact IH |]. intros ys. apply yields_ret. exact I.
Qed.

Lemma yields_true_column_entry (c : pyval) : yields (fun _ => True) (column_entry c).
Proof.
  unfold column_entry.
  apply yields_bind_any; [apply yields_true_attr | intros name].
  apply yields_bind_any; [apply yields_true_attr | intros type_name].
  apply yields_bind_any; [| intros ty; apply yields_ret; exact I].
  destruct (py_truthy type_name).
  - apply yields_bind_any; [apply yields_true_attr | intros v; apply yields_ret; exact I].
  - apply yields_ret. exact I.
Qed.

#[local] Hint Resolve yields_true_attr yields_true_lift_py yields_true_remote
  yields_true_column_entry : yields.
#[local] Hint Extern 1 (yields _ (map_m _ _)) =>
  apply yields_true_map_m; intros; apply yields_true_column_entry : yields.
#[local] Hint Extern 1 (yields _ (_retry_with_backoff _ _ _)) =>
  apply yields_retry_with_backoff; auto with yields : yields.

Ltac yields_solve :=
  repeat (cbv zeta;
    match goal with
    | |- yields _ (ret _) =>
        apply yields_ret; first [left; reflexivity | right; reflexivity | exact I]
    | |- yields _ (try_except _ _) => apply yields_try; [| intros ?]
    | |- yields _ (bind _ _) =>
        first [ apply yields_bind_any; [solve [auto with yields] | intros ?]
              | apply yields_bind_any; [| intros ?] ]
    | |- yields _ (if ?b then _ else _) => destruct b
    | |- yields _ (match ?x with _ => _ end) => destruct x
    | |- _ => solve [auto with yields]
    end).

Lemma yields_fetch_statement_result (ws : Workspace) (self : GenieClient)
    (statement_id columns : pyval) :
  yields query_result_shape (_fetch_statement_result ws self statement_id columns).
Proof.
  unfold _fetch_statement_result.
  apply yields_try; [| intros e; apply yields_ret; right; reflexivity].
  apply yields_bind_any; [auto with yields | intros result].
  apply yields_bind_any; [auto with yields | intros status].
  apply (yields_bind (fun o => match o with
                               | Some d => query_result_shape d
                               | None => True
                               end)).
  - yields_solve.
  - intros [d |] Hd; [apply yields_ret; exact Hd |]. yields_solve.
Qed.

#[local] Hint Resolve yields_fetch_statement_result : yields.

Lemma try_except_total {A} (P : A -> Prop) (m : M A) (h : string -> M A) :
  yields P m -> (forall e w, exists a, fst (h e w) = Ok a /\ P a) ->
  forall w, exists a, fst (try_except m h w) = Ok a /\ P a.
Proof.
  intros Hm Hh w. unfold try_except. specialize (Hm w).
  destruct (m w) as [[a | e |] w']; cbn in *; [eauto | apply Hh | contradiction].
Qed.

Lemma get_query_result_total (ws : Workspace) (self : GenieClient) (cid mid : pyval) :
  forall w, exists d, fst (get_query_result ws self cid mid w) = Ok d
                      /\ query_result_shape d.
Proof.
  unfold get_query_result. apply try_except_total.
  - yields_solve.
  - intros e w. eexists. split; [reflexivity | right; reflexivity].
Qed.

Lemma retry_remote_reply (ws : Workspace) (self : GenieClient) (op : string)
    (f : Z -> reply) (v : pyval) (w : World) :
  (1 <= max_retries self)%nat ->
  f (clock w) = Reply v ->
  _retry_with_backoff ws self (remote op f) w
  = (Ok v, mkWorld (clock w) (draws w) (app (trace w) [ECall op])).
Proof.
  intros Hm Hf. unfold _retry_with_backoff.
  destruct (max_retries self) as [| r]; [lia |].
  apply retry_loop_ok. unfold remote. rewrite Hf. reflexivity.
Qed.

Lemma map_m_column_entry (cols : list (pyval * option string)) (w : World) :
  map_m column_entry (map (fun c => sdk_column (fst c) (snd c)) cols) w
  = (Ok (map column_json cols), w).
Proof.
  induction cols as [| [name [ty |]] cols IH]; cbn [map map_m].
  - reflexivity.
  - unfold bind at 1. cbn. unfold bind at 1. rewrite IH. reflexivity.
  - unfold bind at 1. cbn. unfold bind at 1. rewrite IH. reflexivity.
Qed.

Lemma get_query_result_no_rows (ws : Workspace) (self : GenieClient) (cid mid : pyval)
    (cols : list (pyval * option string)) (total : pyval) (has_result : bool)
    (statement_id : pyval) (w : World) :
  (1 <= max_retries self)%nat ->
  py_truthy statement_id = false ->
  get_message_query_result ws (clock w) (space_id self) cid mid
    = Reply (sdk_query_result_no_rows cols total has_result statement_id) ->
  get_query_result ws self cid mid w
  = (Ok (PDict [("columns", PList (map column_json cols)); ("rows", PList []);
                ("total_rows", PInt 0)]),
     mkWorld (clock w) (draws w) (app (trace w) [ECall "get_message_query_result"])).
Proof.
  intros Hm Hs Hr. unfold get_query_result, try_except. unfold bind at 1.
  rewrite (retry_remote_reply ws self _ _ _ w Hm Hr).
  cbn -[map_m column_entry].
  assert (Hi : py_iter (py_or (PList (map (fun c => sdk_column (fst c) (snd c)) cols))
                              (PList []))
               = inl (map (fun c => sdk_column (fst c) (snd c)) cols))
    by (destruct cols; reflexivity).
  rewrite Hi. unfold lift_py. unfold bind at 1. unfold ret at 1. cbv beta iota.
  unfold bind at 1. rewrite map_m_column_entry.
  destruct has_result; cbn; rewrite Hs; reflexivity.
Qed.

(** C9: [get_query_result] never raises and never hangs: from any state of
    the world it returns a dict whose keys are exactly
    [columns, rows, total_rows] or exactly [error]. When the backend answers
    a statement with a manifest but no inline rows ([result] absent or its
    [data_array] None) and no [statement_id] to fetch from, the answer is the
    empty result set with the manifest's columns, not an error. *)
Theorem get_query_result_shapes (ws : Workspace) (self : GenieClient) (cid mid : pyval) :
  (forall w, exists d, fst (get_query_result ws self cid mid w) = Ok d
                       /\ query_result_shape d)
  /\ (forall (cols : list (pyval * option string)) (total : pyval) (has_result : bool)
             (statement_id : pyval) (w : World),
        (1 <= max_retries self)%nat ->
        py_truthy statement_id = false ->
        get_message_query_result ws (clock w) (space_id self) cid mid
          = Reply (sdk_query_result_no_rows cols total has_result statement_id) ->
        get_query_result ws self cid mid w
        = (Ok (PDict [("columns", PList (map column_json cols)); ("rows", PList []);
                      ("total_rows", PInt 0)]),
           mkWorld (clock w) (draws w) (app (trace w) [ECall "get_message_query_result"]))).
Proof.
  split.
  - apply get_query_result_total.
  - intros cols total has_result statement_id w.
    apply get_query_result_no_rows.
Qed.

Lemma get_query_result_shapes_witness :
  get_query_result (query_result_workspace revenue_columns_no_rows) (default_client "sp")
                   (PStr "c1") (PStr "m0") world0
  = (Ok (PDict [("columns", PList [PDict [("name", PStr "region"); ("type", PStr "STRING")];
                                   PDict [("name", PStr "revenue"); ("type", PStr "DOUBLE")]]);
                ("rows", PList []); ("total_rows", PInt 0)]),
     mkWorld 0 0 [ECall "get_message_query_result"]).
Proof.
  destruct (get_query_result_shapes (query_result_workspace revenue_columns_no_rows)
              (default_client "sp") (PStr "c1") (PStr "m0")) as [_ H].
  rewrite (H [(PStr "region", Some "STRING"); (PStr "revenue", Some "DOUBLE")]
             (PInt 0) true PNone world0).
  - reflexivity.
  - vm_compute. lia.
  - reflexivity.
  - reflexivity.
Defined.

(** ** Error propagation at the public boundary *)

Lemma try_except_no_raise {A} (m : M A) (h : string -> M A) :
  (forall e w, is_raise (fst (h e w)) = false) ->
  forall w, is_raise (fst (try_except m h w)) = false.
Proof.
  intros Hh w. unfold try_except.
  destruct (m w) as [[a | e |] w']; [reflexivity | apply Hh | reflexivity].
Qed.

(** C4: no exception crosses the public boundary of the client: from any
    state of the world, whatever the workspace answers and whatever the
    arguments, none of the public operations ends in a raised exception
    (each one catches every exception and turns it into its failure value:
    a result with [success = false], an [error] dict, an empty list,
    [False], or the error string next to an empty transcript). Result
    extraction never raises either: when the structure of the message is
    unexpected it answers [str(message)] as the text, with the error
    recorded as a partial extraction. *)
Theorem public_operations_never_raise (ws : Workspace) (self : GenieClient) :
  (forall question w, is_raise (fst (ask ws self question w)) = false)
  /\ (forall cid question w,
        is_raise (fst (continue_conversation ws self cid question w)) = false)
  /\ (forall w, is_raise (fst (list_conversations ws self w)) = false)
  /\ (forall cid mid w, is_raise (fst (get_query_result ws self cid mid w)) = false)
  /\ (forall cid mid rating w,
        is_raise (fst (send_feedback ws self cid mid rating w)) = false)
  /\ (forall cid w, is_raise (fst (delete_conversation ws self cid w)) = false)
  /\ (forall cid w, is_raise (fst (get_conversation_messages ws self cid w)) = false)
  /\ (forall (message : pyval) (e : string),
        extract_body message = inr e ->
        _extract_result message
        = mkGenieResult true (py_str message) None PNone
                        (Some ("Partial extraction: " ++ e)) None PNone PNone).
Proof.
  repeat split.
  - intros question w. unfold ask, bind at 1, now at 1. cbv beta iota.
    apply try_except_no_raise. intros e w'. reflexivity.
  - intros cid question w. unfold continue_conversation, bind at 1, now at 1.
    cbv beta iota. apply try_except_no_raise. intros e w'. reflexivity.
  - intros w. unfold list_conversations. apply try_except_no_raise.
    intros e w'. reflexivity.
  - intros cid mid w. unfold get_query_result. apply try_except_no_raise.
    intros e w'. reflexivity.
  - intros cid mid rating w. unfold send_feedback. apply try_except_no_raise.
    intros e w'. reflexivity.
  - intros cid w. unfold delete_conversation. apply try_except_no_raise.
    intros e w'. reflexivity.
  - intros cid w. unfold get_conversation_messages. apply try_except_no_raise.
    intros e w'. reflexivity.
  - intros message e H. unfold _extract_result. rewrite H. reflexivity.
Qed.

Lemma public_operations_never_raise_witness :
  _extract_result (PObj "GenieMessage" [("attachments", PInt 7)])
  = mkGenieResult true "GenieMessage(attachments=7)" None PNone
                  (Some "Partial extraction: 'int' object is not iterable") None PNone PNone.
Proof.
  destruct (public_operations_never_raise (message_workspace PNone) (default_client "sp"))
    as [_ [_ [_ [_ [_ [_ [_ H]]]]]]].
  rewrite (H (PObj "GenieMessage" [("attachments", PInt 7)]) "'int' object is not iterable").
  - reflexivity.
  - reflexivity.
Defined.

(** ** Ownership ledger *)

Lemma update_ownership_rows (env : Env) (table : list ConvRow) (ok : bool) (t : Z)
    (user_header : option string) (conversation_id0 : pyval) (question : string)
    (result : GenieResult) (r : ConvRow) :
  In r (update_ownership env table ok t user_header conversation_id0 question result) ->
  (exists r0, In r0 table /\ row_conversation_id r0 = row_conversation_id r)
  \/ (success result = true /\ py_truthy (conversation_id result) = true
      /\ row_conversation_id r = conversation_id result).
Proof.
  unfold update_ownership. intros Hin.
  destruct (success result && py_truthy (conversation_id result)) eqn:E;
    [| left; exists r; auto].
  apply andb_true_iff in E as [Es Ec].
  destruct (conv_store env); [| left; exists r; auto].
  destruct (negb (py_truthy conversation_id0)).
  - unfold record in Hin. destruct ok; [| left; exists r; auto].
    apply in_app_or in Hin as [Hin | Hin]; [left; exists r; auto |].
    destruct Hin as [<- | []]. right. auto.
  - unfold touch in Hin. destruct ok; [| left; exists r; auto].
    apply in_map_iff in Hin as [r0 [Hr Hin]]. left. exists r0. split; [exact Hin |].
    rewrite <- Hr.
    destruct (String.eqb (row_user_email r0) _ && py_eqb (row_conversation_id r0) _);
      reflexivity.
Qed.

Lemma result_json_successful (result : GenieResult) :
  success result = true ->
  successful_response_for (result_json result) (conversation_id result).
Proof.
  intros Hs. unfold successful_response_for, result_json. rewrite Hs. split; reflexivity.
Qed.

Lemma serve_rows (ws : Workspace) (env : Env) (req : request) (table table' : list ConvRow)
    (resp : pyval) (w w' : World) :
  serve ws env req table w = (Ok (resp, table'), w') ->
  forall r, In r table' ->
  (exists r0, In r0 table /\ row_conversation_id r0 = row_conversation_id r)
  \/ successful_response_for resp (row_conversation_id r).
Proof.
  destruct req as [data u ok | cid u ok]; cbn [serve].
  - unfold api_ask. destruct (get_genie_client env) as [genie |].
    2: { intros H. injection H as _ <- _. intros r Hr. left. exists r. auto. }
    unfold bind at 1.
    destruct ((match py_dict_get data "question" (PStr "") with
               | Some (PStr q) => ret (strip q)
               | Some v => raise ("'" ++ py_type_name v ++ "' object has no attribute 'strip'")
               | None => raise ("'" ++ py_type_name data ++ "' object has no attribute 'get'")
               end) w) as [[question | e |] w1]; try discriminate.
    destruct (String.eqb question "").
    { intros H. injection H as _ <- _. intros r Hr. left. exists r. auto. }
    unfold bind at 1.
    destruct ((if py_truthy
                    match py_dict_get data "conversation_id" PNone with
                    | Some v => v
                    | None => PNone
                    end
               then continue_conversation ws genie
                      match py_dict_get data "conversation_id" PNone with
                      | Some v => v
                      | None => PNone
                      end question
               else ask ws genie question) w1)
      as [[result | e |] w2]; try discriminate.
    unfold bind, now, ret. intros H. injection H as <- <- _.
    intros r Hr. apply update_ownership_rows in Hr as [Hr | [Hs [_ Hc]]].
    + left. exact Hr.
    + right. rewrite Hc. apply result_json_successful. exact Hs.
  - unfold api_delete_conversation. destruct (get_genie_client env) as [genie |].
    2: { intros H. injection H as _ <- _. intros r Hr. left. exists r. auto. }
    unfold bind at 1.
    destruct (delete_conversation ws genie cid w) as [[deleted | e |] w1];
      try discriminate.
    destruct (negb deleted).
    { intros H. injection H as _ <- _. intros r Hr. left. exists r. auto. }
    intros H. injection H as _ <- _. intros r Hr. left. exists r. split; [| reflexivity].
    destruct (conv_store env); [| exact Hr].
    unfold remove in Hr. destruct ok; [| exact Hr].
    apply filter_In in Hr as [Hr _]. exact Hr.
Qed.

Lemma serve_all_rows (ws : Workspace) (env : Env) (reqs : list request) :
  forall table table' resps w w',
    serve_all ws env reqs table w = (Ok (resps, table'), w') ->
    forall r, In r table' ->
    (exists r0, In r0 table /\ row_conversation_id r0 = row_conversation_id r)
    \/ (exists resp, In resp resps /\ successful_response_for resp (row_conversation_id r)).
Proof.
  induction reqs as [| req reqs IH]; intros table table' resps w w' H r Hr.
  - cbn in H. injection H as <- <- _. left. exists r. auto.
  - cbn [serve_all] in H.
    destruct (serve ws env req table w) as [[[resp table1] | e |] w1] eqn:Es;
      try discriminate.
    + unfold bind in H.
      destruct (serve_all ws env reqs table1 w1) as [[[resps' table2] | e |] w2] eqn:Ea;
        try discriminate.
      cbn in H. injection H as <- <- _.
      destruct (IH table1 table2 resps' w1 w2 Ea r Hr) as [[r1 [Hr1 Hc1]] | [resp' [Hin Hok]]].
      * destruct (serve_rows ws env req table table1 resp w w1 Es r1 Hr1)
          as [[r0 [Hr0 Hc0]] | Hok].
        -- left. exists r0. split; [exact Hr0 | congruence].
        -- right. exists resp. split; [left; reflexivity | rewrite <- Hc1; exact Hok].
      * right. exists resp'. split; [right; exact Hin | exact Hok].
    + unfold bind in H.
      destruct (serve_all ws env reqs table w1) as [[[resps' table2] | e' |] w2] eqn:Ea;
        try discriminate.
      cbn in H. injection H as <- <- _.
      destruct (IH table table2 resps' w1 w2 Ea r Hr) as [Hl | [resp' [Hin Hok]]].
      * left. exact Hl.
      * right. exists resp'. split; [right; exact Hin | exact Hok].
Qed.

(** C10: [/api/ask] writes the ownership ledger only for a result with
    [success] true and a truthy [conversation_id]: otherwise the ledger is
    left as it was, and every row it holds afterwards either was there
    (possibly touched) or names the result's conversation. So, over any
    sequence of ask and delete requests served from an empty ledger, every
    row of the ledger names a conversation that some answer of the routes
    reported with [success: true]. *)
Theorem ownership_only_for_successful_results :
  (forall (env : Env) (table : list ConvRow) (ok : bool) (t : Z)
          (user_header : option string) (conversation_id0 : pyval) (question : string)
          (result : GenieResult),
     success result = false \/ py_truthy (conversation_id result) = false ->
     update_ownership env table ok t user_header conversation_id0 question result = table)
  /\ (forall (env : Env) (table : list ConvRow) (ok : bool) (t : Z)
             (user_header : option string) (conversation_id0 : pyval) (question : string)
             (result : GenieResult) (r : ConvRow),
        In r (update_ownership env table ok t user_header conversation_id0 question result) ->
        (exists r0, In r0 table /\ row_conversation_id r0 = row_conversation_id r)
        \/ (success result = true /\ py_truthy (conversation_id result) = true
            /\ row_conversation_id r = conversation_id result))
  /\ (forall (ws : Workspace) (env : Env) (reqs : list request) (resps : list pyval)
             (table : list ConvRow) (w w' : World),
        serve_all ws env reqs [] w = (Ok (resps, table), w') ->
        forall r, In r table ->
        exists resp, In resp resps /\ successful_response_for resp (row_conversation_id r)).
Proof.
  split; [| split].
  - intros env table ok t user_header conversation_id0 question result H.
    unfold update_ownership.
    destruct H as [H | H]; rewrite H; [reflexivity | rewrite andb_false_r; reflexivity].
  - exact update_ownership_rows.
  - intros ws env reqs resps table w w' H r Hr.
    destruct (serve_all_rows ws env reqs [] table resps w w' H r Hr)
      as [[r0 [[] _]] | Hok].
    exact Hok.
Qed.

Lemma ownership_only_for_successful_results_witness :
  exists resps table w',
    serve_all ws_stable_chain (mkEnv (Some "sp") true)
      [AskRequest (PDict [("question", PStr "What is total revenue?")])
                  (Some "analyst@example.com") true]
      [] world0 = (Ok (resps, table), w')
    /\ table = [mkConvRow "analyst@example.com" (PStr "c1") "What is total revenue?"
                          21000 21000]
    /\ exists resp, In resp resps /\ successful_response_for resp (PStr "c1").
Proof.
  destruct ownership_only_for_successful_results as [_ [_ H]].
  destruct (serve_all ws_stable_chain (mkEnv (Some "sp") true)
              [AskRequest (PDict [("question", PStr "What is total revenue?")])
                          (Some "analyst@example.com") true]
              [] world0) as [[[resps table] | e |] w'] eqn:E;
    [| vm_compute in E; discriminate E | vm_compute in E; discriminate E].
  exists resps, table, w'. split; [reflexivity |].
  assert (Ht : table = [mkConvRow "analyst@example.com" (PStr "c1")
                          "What is total revenue?" 21000 21000]).
  { pose proof E as E'. vm_compute in E'. injection E' as _ <- _. reflexivity. }
  split; [exact Ht |].
  apply (H _ _ _ resps table world0 w' E
           (mkConvRow "analyst@example.com" (PStr "c1") "What is total revenue?" 21000 21000)).
  rewrite Ht. left. reflexivity.
Defined.

(** * Further properties of the code *)

(** X4: after [k+1] polls the interval is the initial one doubled [k+1] times, capped at [max_poll_interval]. *)
Theorem poll_interval_after_polls (self : GenieClient) (i : Z) (k : nat) :
  0 <= max_poll_interval self ->
  Nat.iter (S k) (_get_next_poll_interval self) i
  = Z.min (i * 2 ^ Z.of_nat (S k)) (max_poll_interval self).
Proof.
  intros HM. induction k as [| k IH].
  - reflexivity.
  - rewrite Nat.iter_succ, IH. unfold _get_next_poll_interval.
    rewrite (Nat2Z.inj_succ (S k)), Z.pow_succ_r by lia.
    set (a := i * 2 ^ Z.of_nat (S k)). lia.
Qed.

(** X7: a message with no (or empty) attachments gives a successful result with an empty answer and no SQL query. *)
Theorem extract_result_without_attachments (message : pyval) :
  py_truthy (py_getattr message "attachments" PNone) = false ->
  _extract_result message = mkGenieResult true "" None PNone None None PNone PNone.
Proof.
  intros H. unfold _extract_result, extract_body. rewrite H, andb_false_r. reflexivity.
Qed.

Lemma py_eqb_refl (v : pyval) : py_eqb v v = true.
Proof.
  revert v. fix IH 1. intros v.
  destruct v as [| b | z | s | xs | kvs | c fs]; cbn.
  - reflexivity.
  - destruct b; reflexivity.
  - apply Z.eqb_refl.
  - apply String.eqb_refl.
  - revert xs. fix IHl 1. intros [| x xs]; [reflexivity |].
    cbn. rewrite (IH x). exact (IHl xs).
  - revert kvs. fix IHl 1. intros [| [k x] kvs]; [reflexivity |].
    cbn. rewrite String.eqb_refl, (IH x). exact (IHl kvs).
  - rewrite String.eqb_refl. cbn. revert fs. fix IHl 1. intros [| [k x] fs]; [reflexivity |].
    cbn. rewrite String.eqb_refl, (IH x). exact (IHl fs).
Qed.

(** X12: when its [DELETE] succeeds, [remove] deletes exactly the rows of the
    given user and conversation id and keeps every other row; when the
    statement fails ([_execute] swallows the error) every row is kept. *)
Theorem remove_deletes_exactly_the_pair (table : list ConvRow) (ok : bool)
    (user_email : string) (conversation_id : pyval) (r : ConvRow) :
  In r (remove table ok user_email conversation_id)
  <-> In r table /\ (ok = true -> ~ (row_user_email r = user_email
                                    /\ py_eqb (row_conversation_id r) conversation_id = true)).
Proof.
  unfold remove. destruct ok.
  2: { split; [intros H; split; [exact H | discriminate] | intros [H _]; exact H]. }
  rewrite filter_In, negb_true_iff, andb_false_iff, String.eqb_neq.
  assert (Hok : forall P : Prop, (true = true -> P) <-> P)
    by (intros P; split; [intros H; exact (H eq_refl) | intros H _; exact H]).
  rewrite Hok.
  split.
  - intros [Hin Hn]. split; [exact Hin |]. intros [Hu Hc].
    destruct Hn as [Hn | Hn]; [exact (Hn Hu) | congruence].
  - intros [Hin Hn]. split; [exact Hin |].
    destruct (py_eqb (row_conversation_id r) conversation_id) eqn:E; [| right; reflexivity].
    left. intros Hu. exact (Hn (conj Hu eq_refl)).
Qed.

(** X13: [touch] changes only the [updated_at] column: the other columns of
    every row are kept; when its [UPDATE] succeeds the matching rows get the
    new timestamp, and when it fails the table is unchanged; without a
    matching row the table is unchanged. *)
Theorem touch_only_bumps_updated_at (table : list ConvRow) (ok : bool) (t : Z)
    (user_email : string) (conversation_id : pyval) :
  map row_identity (touch table ok t user_email conversation_id) = map row_identity table
  /\ (if ok then
        forall r, In r (touch table ok t user_email conversation_id) ->
          String.eqb (row_user_email r) user_email
          && py_eqb (row_conversation_id r) conversation_id = true ->
          row_updated_at r = t
      else touch table ok t user_email conversation_id = table)
  /\ (forallb (fun r => negb (String.eqb (row_user_email r) user_email
                              && py_eqb (row_conversation_id r) conversation_id)) table
      = true ->
      touch table ok t user_email conversation_id = table).
Proof.
  unfold touch. split; [| split].
  - destruct ok; [| reflexivity]. rewrite map_map. apply map_ext. intros r.
    destruct (_ && _); reflexivity.
  - destruct ok; [| reflexivity].
    intros r Hin Hm. apply in_map_iff in Hin as [r0 [<- _]].
    destruct (String.eqb (row_user_email r0) user_email
              && py_eqb (row_conversation_id r0) conversation_id) eqn:E;
      [reflexivity | cbn in Hm; congruence].
  - intros Hall. destruct ok; [| reflexivity].
    induction table as [| r table IH]; [reflexivity |].
    cbn in Hall. apply andb_true_iff in Hall as [Hr Hall].
    apply negb_true_iff in Hr. cbn. rewrite Hr, (IH Hall). reflexivity.
Qed.

(** X14: recording a conversation and then removing it for the same user:
    when the [DELETE] succeeds, the table is the one removing alone would
    give, whether the [INSERT] succeeded or not; when the [DELETE] fails, the
    table is the one the [INSERT] left. *)
Theorem record_then_remove (table : list ConvRow) (ok_record ok_remove : bool) (t : Z)
    (user_email : string) (conversation_id : pyval) (title : string) :
  remove (record table ok_record t user_email conversation_id title) ok_remove
         user_email conversation_id
  = if ok_remove then remove table ok_remove user_email conversation_id
    else record table ok_record t user_email conversation_id title.
Proof.
  unfold remove. destruct ok_remove; [| reflexivity].
  unfold record. destruct ok_record; [| reflexivity].
  rewrite filter_app. cbn.
  rewrite String.eqb_refl, py_eqb_refl. cbn. apply app_nil_r.
Qed.

Lemma insert_updated_desc_perm (r : ConvRow) (l : list ConvRow) :
  Permutation (r :: l) (insert_updated_desc r l).
Proof.
  induction l as [| r' l IH]; cbn; [reflexivity |].
  destruct (row_updated_at r' <=? row_updated_at r); [reflexivity |].
  rewrite perm_swap. apply perm_skip. exact IH.
Qed.

Lemma order_by_updated_desc_perm (l : list ConvRow) :
  Permutation l (order_by_updated_desc l).
Proof.
  induction l as [| r l IH]; cbn; [reflexivity |].
  rewrite <- insert_updated_desc_perm. apply perm_skip. exact IH.
Qed.

Lemma insert_updated_desc_sorted (r : ConvRow) (l : list ConvRow) :
  StronglySorted updated_ge l -> StronglySorted updated_ge (insert_updated_desc r l).
Proof.
  induction l as [| r' l IH]; intros Hs; cbn.
  - constructor; constructor.
  - apply StronglySorted_inv in Hs as [Hs Hf].
    destruct (row_updated_at r' <=? row_updated_at r) eqn:E.
    + apply Z.leb_le in E. constructor; [constructor; assumption |].
      constructor; [exact E |].
      eapply Forall_impl; [| exact Hf]. unfold updated_ge. intros a Ha. lia.
    + apply Z.leb_gt in E. constructor; [apply IH; exact Hs |].
      eapply Permutation_Forall; [exact (insert_updated_desc_perm r l) |].
      constructor; [unfold updated_ge; lia | exact Hf].
Qed.

Lemma order_by_updated_desc_sorted (l : list ConvRow) :
  StronglySorted updated_ge (order_by_updated_desc l).
Proof.
  induction l as [| r l IH]; cbn; [constructor |]. apply insert_updated_desc_sorted. exact IH.
Qed.

(** X15: [get_conversations] lists every row of the user, and only those, most recently updated first; when the statement returns no data it lists nothing. *)
Theorem get_conversations_lists_owned_rows (table : list ConvRow) (user_email : string) :
  get_conversations table false user_email = []
  /\ exists rows,
       get_conversations table true user_email = map conversation_entry rows
       /\ Permutation rows (filter (fun r => String.eqb (row_user_email r) user_email) table)
       /\ Sorted (fun a b => row_updated_at b <= row_updated_at a) rows.
Proof.
  split; [reflexivity |].
  eexists. split; [reflexivity |]. split.
  - symmetry. apply order_by_updated_desc_perm.
  - apply StronglySorted_Sorted. apply order_by_updated_desc_sorted.
Qed.

Lemma insert_by_int (key : pyval -> pyval) (x : pyval) (l : list pyval) :
  int_keyed key x -> Forall (int_keyed key) l ->
  exists l', insert_by key x l = inl l' /\ Permutation (x :: l) l'
             /\ (StronglySorted (key_le key) l -> StronglySorted (key_le key) l')
             /\ (forall z, filter (fun e => py_int_of (key e) =? z) l'
                           = filter (fun e => py_int_of (key e) =? z) (x :: l)).
Proof.
  intros [zx Hx]. induction l as [| y l IH]; intros Hl.
  - exists [x]. split; [reflexivity |]. split; [reflexivity |].
    split; [intros _; constructor; constructor | reflexivity].
  - apply Forall_cons_iff in Hl as [[zy Hy] Hl].
    cbn. rewrite Hx, Hy. cbn.
    destruct (zy <? zx) eqn:E.
    + destruct (IH Hl) as [l' [Hi [Hp [Hs' Hf']]]]. rewrite Hi.
      eexists. split; [reflexivity |]. split; [| split].
      * rewrite perm_swap. apply perm_skip. exact Hp.
      * intros Hs. apply StronglySorted_inv in Hs as [Hs Hf].
        apply Z.ltb_lt in E. constructor; [apply Hs'; exact Hs |].
        eapply Permutation_Forall; [exact Hp |].
        constructor; [unfold key_le; rewrite Hx, Hy; cbn; lia | exact Hf].
      * intros z. cbn [filter]. rewrite Hf'. cbn [filter]. rewrite Hx, Hy. cbn.
        apply Z.ltb_lt in E.
        destruct (Z.eqb_spec zy z), (Z.eqb_spec zx z); try lia; reflexivity.
    + eexists. split; [reflexivity |]. split; [reflexivity |].
      split; [| intros z; cbn [filter]; rewrite ?Hx, ?Hy; reflexivity].
      intros Hs. apply Z.ltb_ge in E. constructor; [exact Hs |].
      apply StronglySorted_inv in Hs as [_ Hf].
      constructor; [unfold key_le; rewrite Hx, Hy; cbn; lia |].
      eapply Forall_impl; [| exact Hf]. unfold key_le. rewrite Hx, Hy. cbn. intros a Ha. lia.
Qed.

Lemma sort_by_int (key : pyval -> pyval) (l : list pyval) :
  Forall (int_keyed key) l ->
  exists l', sort_by key l = inl l' /\ Permutation l l' /\ StronglySorted (key_le key) l'
             /\ (forall z, filter (fun e => py_int_of (key e) =? z) l'
                           = filter (fun e => py_int_of (key e) =? z) l).
Proof.
  induction l as [| x l IH]; intros Hl.
  - exists []. split; [reflexivity |]. split; [constructor | split; [constructor | reflexivity]].
  - apply Forall_cons_iff in Hl as [Hx Hl].
    destruct (IH Hl) as [s [Hs [Hp [Hsorted Hst]]]].
    assert (Hfs : Forall (int_keyed key) s) by (eapply Permutation_Forall; eassumption).
    destruct (insert_by_int key x s Hx Hfs) as [l' [Hi [Hp' [Hs' Hf']]]].
    exists l'. cbn. rewrite Hs, Hi. split; [reflexivity |]. split; [| split].
    + rewrite <- Hp'. apply perm_skip. exact Hp.
    + apply Hs'. exact Hsorted.
    + intros z. rewrite Hf'. cbn [filter]. rewrite Hst. reflexivity.
Qed.

(** X10: when listing the messages succeeds, whether it answers a list or a
    response object with a [messages] list, and every transcript entry has an
    integer timestamp, [get_conversation_messages] returns no error and the
    entries of all messages ordered by ascending timestamp; entries with the
    same timestamp keep their order (the sort is stable). *)
Theorem conversation_messages_sorted_by_timestamp (ws : Workspace) (self : GenieClient)
    (conversation_id response : pyval) (msgs : list pyval) (w : World) :
  (1 <= max_retries self)%nat ->
  list_conversation_messages ws (clock w) (space_id self) conversation_id
    = Reply response ->
  response = PList msgs \/ py_attr response "messages" = Some (PList msgs) ->
  Forall (fun m => exists z, transcript_key m = PInt z) (flat_map transcript_entries msgs) ->
  exists l,
    fst (get_conversation_messages ws self conversation_id w) = Ok (l, None)
    /\ Permutation (flat_map transcript_entries msgs) l
    /\ Sorted (fun a b => py_int_of (transcript_key a) <= py_int_of (transcript_key b)) l
    /\ (forall z, filter (fun e => py_int_of (transcript_key e) =? z) l
                  = filter (fun e => py_int_of (transcript_key e) =? z)
                           (flat_map transcript_entries msgs)).
Proof.
  intros Hm Hr Hresp Hk.
  destruct (sort_by_int transcript_key _ Hk) as [l [Hs [Hp [Hsorted Hst]]]].
  exists l. split; [| split; [exact Hp | split; [exact (StronglySorted_Sorted Hsorted) | exact Hst]]].
  assert (Hitems : (if py_hasattr response "messages"
                    then py_getattr response "messages" PNone else response) = PList msgs).
  { destruct Hresp as [-> | Ha]; [reflexivity |].
    unfold py_hasattr, py_getattr. rewrite Ha. reflexivity. }
  unfold get_conversation_messages, try_except. unfold bind at 1.
  unfold list_msgs. rewrite (retry_remote_reply ws self _ _ _ w Hm Hr).
  cbv zeta. rewrite Hitems. cbn -[sort_by flat_map].
  destruct msgs as [| m msgs'].
  - cbn in Hs. injection Hs as <-. reflexivity.
  - cbn -[sort_by flat_map]. rewrite Hs. reflexivity.
Qed.

(** X9: any rating other than the exact string [positive] is sent as negative feedback. *)
Theorem feedback_rating_other_than_positive_is_negative (ws : Workspace) (self : GenieClient)
    (conversation_id message_id rating : pyval) :
  py_eqb rating (PStr "positive") = false ->
  send_feedback ws self conversation_id message_id rating
  = send_feedback ws self conversation_id message_id (PStr "negative").
Proof. intros H. unfold send_feedback. rewrite H. reflexivity. Qed.

(** X3: with [max_retries = 0] the retry loop makes no attempt and raises [None]: [ask] and [continue_conversation] report the resulting TypeError as a failed result and [delete_conversation] returns [False], all without calling the workspace or sleeping. *)
Theorem zero_retries_never_call_backend (ws : Workspace) (self : GenieClient)
    (question : string) (conversation_id : pyval) (w : World) :
  max_retries self = 0%nat ->
  ask ws self question w
  = (Ok (mkGenieResult false "" None PNone (Some "exceptions must derive from BaseException")
                       (Some 0) PNone PNone), w)
  /\ continue_conversation ws self conversation_id question w
  = (Ok (mkGenieResult false "" None PNone (Some "exceptions must derive from BaseException")
                       (Some 0) conversation_id PNone), w)
  /\ delete_conversation ws self conversation_id w = (Ok false, w).
Proof.
  intros H0. destruct w as [c dr tr].
  unfold ask, continue_conversation, delete_conversation, _retry_with_backoff.
  rewrite H0. cbn. rewrite Z.sub_diag. split; [| split]; reflexivity.
Qed.

Lemma retry_remote_always_fails (ws : Workspace) (self : GenieClient) (op : string)
    (f : Z -> reply) (e : string) (w : World) :
  (1 <= max_retries self)%nat ->
  (forall t, f t = Fail e) ->
  (forall n, 0 <= uniform ws n) ->
  exists w', _retry_with_backoff ws self (remote op f) w = (Raise e, w').
Proof.
  intros Hm Hf Hu. unfold _retry_with_backoff.
  destruct (_is_retryable_error e) eqn:Er.
  - rewrite (retry_loop_all_retryable ws self op f (fun _ => e) Hf (fun _ => Er) Hu
               (max_retries self) 0 None w eq_refl Hm).
    eexists. reflexivity.
  - destruct (max_retries self) as [| r] eqn:Emr; [lia |].
    eexists. apply retry_loop_non_retryable; [| exact Er].
    unfold remote. rewrite Hf. reflexivity.
Qed.

(** X8: when posting a follow-up keeps failing, [continue_conversation] returns a failed result that still carries the conversation id and the error message. *)
Theorem failed_follow_up_keeps_conversation_id (ws : Workspace) (self : GenieClient)
    (conversation_id : pyval) (question e : string) (w : World) :
  (1 <= max_retries self)%nat ->
  (forall t, create_message ws t (space_id self) conversation_id question = Fail e) ->
  (forall n, 0 <= uniform ws n) ->
  exists w',
    continue_conversation ws self conversation_id question w
    = (Ok (mkGenieResult false "" None PNone (Some e) (Some (clock w' - clock w))
                         conversation_id PNone), w').
Proof.
  intros Hm Hf Hu.
  destruct (retry_remote_always_fails ws self "create_message"
              (fun t => create_message ws t (space_id self) conversation_id question) e w
              Hm Hf Hu) as [w' Hr].
  exists w'. unfold continue_conversation, try_except. unfold bind at 1, now at 1.
  cbv beta iota. unfold bind at 1. rewrite Hr. reflexivity.
Qed.

(** X2: with at least two attempts, an operation that fails once with a retryable error and then answers returns that answer; the backoff sleeps once, for the base delay plus the jitter drawn. *)
Theorem retry_recovers_after_transient_failure (ws : Workspace) (self : GenieClient)
    (op : string) (f : Z -> reply) (e : string) (v : pyval) (w : World) :
  (2 <= max_retries self)%nat ->
  f (clock w) = Fail e ->
  _is_retryable_error e = true ->
  0 <= uniform ws (draws w) ->
  f (clock w + (RETRY_BASE_DELAY + uniform ws (draws w))) = Reply v ->
  _retry_with_backoff ws self (remote op f) w
  = (Ok v, mkWorld (clock w + (RETRY_BASE_DELAY + uniform ws (draws w))) (S (draws w))
                   (app (trace w) [ECall op; ESleep (RETRY_BASE_DELAY + uniform ws (draws w));
                                      ECall op])).
Proof.
  intros Hm Hf He Hu Hv. destruct w as [c dr tr]. cbn [clock draws trace] in *.
  unfold _retry_with_backoff.
  destruct (max_retries self) as [| [| r]] eqn:Emr; [lia | lia |].
  cbn [retry_loop]. unfold try_except at 1, remote at 1. cbn [clock draws trace].
  rewrite Hf, He. cbn [negb].
  rewrite Emr. cbn [Nat.sub Nat.ltb Nat.leb].
  unfold bind at 1, bind at 1, random_uniform, sleep. cbv beta iota zeta.
  cbn [clock draws trace].
  change (2 ^ Z.of_nat 0) with 1. rewrite Z.mul_1_r.
  assert (Hd : (RETRY_BASE_DELAY + uniform ws dr <? 0) = false)
    by (apply Z.ltb_ge; unfold RETRY_BASE_DELAY; lia).
  rewrite Hd. unfold try_except, remote. cbn [clock draws trace]. rewrite Hv.
  rewrite <- !app_assoc. reflexivity.
Qed.

Lemma touch_identity (table : list ConvRow) (ok : bool) (t : Z)
    (user_email : string) (conversation_id : pyval) :
  map row_identity (touch table ok t user_email conversation_id) = map row_identity table.
Proof.
  unfold touch. destruct ok; [| reflexivity]. rewrite map_map. apply map_ext. intros r.
  destruct (_ && _); reflexivity.
Qed.

Lemma list_conversations_total (ws : Workspace) (self : GenieClient) :
  forall w, exists v, fst (list_conversations ws self w) = Ok v.
Proof.
  intros w. unfold list_conversations.
  match goal with
  | |- context [try_except ?m ?h] =>
      destruct (try_except_total (fun _ => True) m h) with (w := w) as [v [Hv _]]
  end.
  - yields_solve. apply yields_true_map_m. intros conv. yields_solve.
  - intros e w'. exists (PList []). split; [reflexivity | exact I].
  - exists v. exact Hv.
Qed.

Lemma pdict_set_values (k v : pyval) (d : list (pyval * pyval)) :
  forall x, In x (map snd (pdict_set k v d)) -> x = v \/ In x (map snd d).
Proof.
  induction d as [| [k' v'] d IH]; intros x Hx; cbn in *.
  - destruct Hx as [<- | []]. left. reflexivity.
  - destruct (py_eqb k' k); cbn in Hx.
    + destruct Hx as [<- | Hx]; [left; reflexivity | right; right; exact Hx].
    + destruct Hx as [<- | Hx]; [right; left; reflexivity |].
      destruct (IH x Hx) as [H | H]; [left; exact H | right; right; exact H].
Qed.

Lemma build_lookup_dicts (cs : list pyval) :
  forall acc d, Forall dictlike (map snd acc) -> build_lookup acc cs = inl d ->
  Forall dictlike (map snd d).
Proof.
  induction cs as [| c cs IH]; intros acc d Hacc H; cbn in H.
  - injection H as <-. exact Hacc.
  - destruct c as [| | | | | kvs |]; try discriminate.
    cbn in H. destruct (assoc "id" kvs) as [k |]; [| discriminate].
    destruct (py_hashable k); [| discriminate].
    refine (IH _ _ _ H). apply Forall_forall. intros x Hx.
    destruct (pdict_set_values _ _ _ x Hx) as [-> | Hin].
    + exists kvs. reflexivity.
    + exact (proj1 (Forall_forall _ _) Hacc x Hin).
Qed.

Lemma pdict_lookup_value (k : pyval) (d : list (pyval * pyval)) (v : pyval) :
  pdict_lookup k d = Some v -> In v (map snd d).
Proof.
  induction d as [| [k' v'] d IH]; cbn; [discriminate |].
  destruct (py_eqb k' k).
  - intros H. injection H as <-. left. reflexivity.
  - intros H. right. exact (IH H).
Qed.

Lemma map_m_pure {A B} (f : A -> M B) (P : A -> B -> Prop) (xs : list A) :
  (forall x, In x xs -> forall w, exists y, f x w = (Ok y, w) /\ P x y) ->
  forall w, exists ys, map_m f xs w = (Ok ys, w) /\ Forall2 P xs ys.
Proof.
  induction xs as [| x xs IH]; intros Hf w.
  - exists []. split; [reflexivity | constructor].
  - destruct (Hf x (or_introl eq_refl) w) as [y [Hy Hp]].
    destruct (IH (fun x' Hx' => Hf x' (or_intror Hx')) w) as [ys [Hys Hps]].
    exists (y :: ys). cbn [map_m]. unfold bind at 1. rewrite Hy.
    unfold bind at 1. rewrite Hys. split; [reflexivity | constructor; assumption].
Qed.

Lemma Forall2_map_eq {A B C} (f : A -> C) (g : B -> C) (xs : list A) (ys : list B) :
  Forall2 (fun x y => g y = f x) xs ys -> map g ys = map f xs.
Proof. induction 1; cbn; congruence. Qed.

Lemma enrich_entry (lookup : list (pyval * pyval)) (r : ConvRow) :
  Forall dictlike (map snd lookup) -> py_hashable (row_conversation_id r) = true ->
  forall w, exists y, enrich lookup (conversation_entry r) w = (Ok y, w)
                      /\ listing_key y = listing_key (conversation_entry r).
Proof.
  intros Hl Hh w. unfold enrich.
  assert (Hid : py_getitem (conversation_entry r) "id" = inl (row_conversation_id r))
    by reflexivity.
  rewrite Hid. unfold lift_py at 1. unfold bind at 1. unfold ret at 1. cbv beta iota.
  rewrite Hh.
  assert (Hg : exists kvs, (match pdict_lookup (row_conversation_id r) lookup with
                            | Some c => c | None => PDict [] end) = PDict kvs).
  { destruct (pdict_lookup (row_conversation_id r) lookup) as [c |] eqn:E.
    - apply pdict_lookup_value in E. exact (proj1 (Forall_forall _ _) Hl c E).
    - exists []. reflexivity. }
  destruct Hg as [kvs Hg]. rewrite Hg.
  cbv [bind ret lift_py]. cbn.
  destruct (py_truthy match assoc "title" kvs with Some a => a | None => PNone end);
  destruct (py_truthy match assoc "updated_at" kvs with Some a => a | None => PNone end);
  eexists; (split; [reflexivity | reflexivity]).
Qed.

Lemma get_conversations_entries (table : list ConvRow) (ok : bool) (user_email : string)
    (x : pyval) :
  In x (get_conversations table ok user_email) ->
  exists r, In r table /\ x = conversation_entry r.
Proof.
  unfold get_conversations. destruct ok; [| intros []].
  intros Hx. apply in_map_iff in Hx as [r [<- Hr]].
  exists r. split; [| reflexivity].
  apply (Permutation_in _ (Permutation_sym (order_by_updated_desc_perm _))) in Hr.
  apply filter_In in Hr as [Hr _]. exact Hr.
Qed.

Lemma build_lookup_route_total (ws : Workspace) (sp : string) :
  forall w, exists lookup w',
    try_except
      (convs <- list_conversations ws (default_client sp);;
       cs <- lift_py (py_iter convs);;
       lift_py (build_lookup [] cs))
      (fun _ => ret []) w = (Ok lookup, w')
    /\ Forall dictlike (map snd lookup).
Proof.
  intros w. unfold try_except, bind at 1.
  destruct (list_conversations_total ws (default_client sp) w) as [v Hv].
  destruct (list_conversations ws (default_client sp) w) as [r w1]. cbn in Hv. subst r.
  unfold bind at 1. unfold lift_py at 1.
  destruct (py_iter v) as [cs | e]; [| exists [], w1; split; [reflexivity | constructor]].
  unfold ret at 1. unfold lift_py.
  destruct (build_lookup [] cs) as [d | e] eqn:Ed.
  - exists d, w1. split; [reflexivity |].
    exact (build_lookup_dicts cs [] d (Forall_nil _) Ed).
  - exists [], w1. split; [reflexivity | constructor].
Qed.

Lemma get_genie_client_some (env : Env) (sp : string) :
  GENIE_SPACE_ID env = Some sp -> sp <> "" -> get_genie_client env = Some (default_client sp).
Proof.
  intros Hsp Hne. unfold get_genie_client. rewrite Hsp.
  destruct (String.eqb_spec sp ""); [contradiction | reflexivity].
Qed.

(** X17: with a conversation store, the listing route returns one entry per ledger conversation of the user, in the ledger order, with the ledger id and creation time, whatever the Genie listing returns (ledger ids being hashable). *)
Theorem list_route_keeps_delta_conversations (ws : Workspace) (env : Env) (sp : string)
    (user_header : option string) (ok : bool) (table : list ConvRow) :
  GENIE_SPACE_ID env = Some sp -> sp <> "" -> conv_store env = true ->
  forallb (fun r => py_hashable (row_conversation_id r)) table = true ->
  forall w, exists convs,
    fst (api_list_conversations ws env user_header ok table w)
    = Ok (PDict [("success", PBool true); ("conversations", PList convs)])
    /\ map listing_key convs
       = map listing_key (get_conversations table ok
                            (match user_header with Some u => u | None => "anonymous" end)).
Proof.
  intros Hsp Hne Hcs Hh w. unfold api_list_conversations.
  rewrite (get_genie_client_some env sp Hsp Hne), Hcs. cbv zeta.
  unfold bind at 1.
  destruct (build_lookup_route_total ws sp w) as [lookup [w1 [Hl Hd]]]. rewrite Hl.
  set (user := match user_header with Some u => u | None => "anonymous" end).
  destruct (map_m_pure (enrich lookup) (fun x y => listing_key y = listing_key x)
              (get_conversations table ok user)) with (w := w1) as [ys [Hys Hp]].
  { intros x Hx w2. apply get_conversations_entries in Hx as [r [Hr ->]].
    apply enrich_entry; [exact Hd |].
    exact (proj1 (forallb_forall _ _) Hh r Hr). }
  unfold bind at 1. rewrite Hys. exists ys. split; [reflexivity |].
  apply Forall2_map_eq. exact Hp.
Qed.

Lemma enrich_empty_lookup (r : ConvRow) (w : World) :
  py_hashable (row_conversation_id r) = true ->
  enrich [] (conversation_entry r) w = (Ok (conversation_entry r), w).
Proof.
  intros Hh. unfold enrich.
  assert (Hid : py_getitem (conversation_entry r) "id" = inl (row_conversation_id r))
    by reflexivity.
  rewrite Hid. unfold lift_py at 1. unfold bind at 1. unfold ret at 1. cbv beta iota.
  rewrite Hh. cbv [bind ret lift_py pdict_lookup]. cbn. reflexivity.
Qed.

Lemma map_m_enrich_empty (rows : list ConvRow) (w : World) :
  forallb (fun r => py_hashable (row_conversation_id r)) rows = true ->
  map_m (enrich []) (map conversation_entry rows) w = (Ok (map conversation_entry rows), w).
Proof.
  induction rows as [| r rows IH]; intros Hh; [reflexivity |].
  cbn in Hh. apply andb_true_iff in Hh as [Hr Hh].
  cbn [map map_m]. unfold bind at 1. rewrite (enrich_empty_lookup r w Hr).
  unfold bind at 1. rewrite (IH Hh). reflexivity.
Qed.

(** X18: when the Genie listing keeps failing, the listing route returns the ledger entries unchanged. *)
Theorem list_route_falls_back_to_delta (ws : Workspace) (env : Env) (sp : string)
    (user_header : option string) (ok : bool) (table : list ConvRow) (e : string) :
  GENIE_SPACE_ID env = Some sp -> sp <> "" -> conv_store env = true ->
  forallb (fun r => py_hashable (row_conversation_id r)) table = true ->
  (forall t, list_conversations_api ws t sp = Fail e) ->
  (forall n, 0 <= uniform ws n) ->
  forall w, exists w',
    api_list_conversations ws env user_header ok table w
    = (Ok (PDict [("success", PBool true);
                  ("conversations",
                   PList (get_conversations table ok
                            (match user_header with Some u => u | None => "anonymous" end)))]),
       w').
Proof.
  intros Hsp Hne Hcs Hh Hf Hu w. unfold api_list_conversations.
  rewrite (get_genie_client_some env sp Hsp Hne), Hcs. cbv zeta.
  destruct (retry_remote_always_fails ws (default_client sp) "list_conversations"
              (fun t => list_conversations_api ws t (space_id (default_client sp))) e w
              (le_n_S 0 2 (Nat.le_0_l 2)) Hf Hu) as [w1 Hr].
  assert (Hl : list_conversations ws (default_client sp) w = (Ok (PList []), w1)).
  { unfold list_conversations, try_except. unfold bind at 1. rewrite Hr. reflexivity. }
  unfold bind at 1, try_except. unfold bind at 1. rewrite Hl. cbn [lift_py py_iter].
  unfold bind at 1, ret at 1. cbn [build_lookup lift_py]. unfold ret at 1.
  set (user := match user_header with Some u => u | None => "anonymous" end).
  exists w1. unfold bind at 1.
  assert (Hm : map_m (enrich []) (get_conversations table ok user) w1
               = (Ok (get_conversations table ok user), w1)).
  { unfold get_conversations. destruct ok; [| reflexivity].
    apply map_m_enrich_empty.
    apply forallb_forall. intros r Hin.
    apply (Permutation_in _ (Permutation_sym (order_by_updated_desc_perm _))) in Hin.
    apply filter_In in Hin as [Hin _].
    exact (proj1 (forallb_forall _ _) Hh r Hin). }
  rewrite Hm. reflexivity.
Qed.

Lemma api_ask_inv (ws : Workspace) (env : Env) (data : pyval) (user_header : option string)
    (ok : bool) (table table' : list ConvRow) (resp : pyval) (w w' : World) :
  api_ask ws env data user_header ok table w = (Ok (resp, table'), w') ->
  table' = table
  \/ exists q result t,
       py_dict_get data "question" (PStr "") = Some (PStr q)
       /\ resp = result_json result
       /\ table' = update_ownership env table ok t user_header
                     (match py_dict_get data "conversation_id" PNone with
                      | Some v => v | None => PNone end)
                     (strip q) result.
Proof.
  unfold api_ask. destruct (get_genie_client env) as [genie |].
  2: { intros H. injection H as _ <- _. left. reflexivity. }
  unfold bind at 1.
  destruct (py_dict_get data "question" (PStr "")) as [[| | | q | | |] |] eqn:Eq;
    try (unfold raise; discriminate).
  unfold ret at 1. destruct (String.eqb (strip q) "").
  { intros H. injection H as _ <- _. left. reflexivity. }
  unfold bind at 1.
  destruct ((if py_truthy
                  match py_dict_get data "conversation_id" PNone with
                  | Some v => v
                  | None => PNone
                  end
             then continue_conversation ws genie
                    match py_dict_get data "conversation_id" PNone with
                    | Some v => v
                    | None => PNone
                    end (strip q)
             else ask ws genie (strip q)) w)
    as [[result | e |] w2]; try discriminate.
  unfold bind, now, ret. intros H. injection H as <- <- _.
  right. exists q, result, (clock w2). split; [reflexivity | split; reflexivity].
Qed.

(** X19: a follow-up question (truthy [conversation_id]) never adds or removes a ledger row nor changes its identity columns. *)
Theorem ask_route_follow_up_adds_no_row (ws : Workspace) (env : Env) (data : pyval)
    (user_header : option string) (ok : bool) (table table' : list ConvRow)
    (resp conversation_id0 : pyval) (w w' : World) :
  py_dict_get data "conversation_id" PNone = Some conversation_id0 ->
  py_truthy conversation_id0 = true ->
  api_ask ws env data user_header ok table w = (Ok (resp, table'), w') ->
  map row_identity table' = map row_identity table.
Proof.
  intros Hc Ht H.
  destruct (api_ask_inv ws env data user_header ok table table' resp w w' H)
    as [-> | [q [result [t [_ [_ ->]]]]]]; [reflexivity |].
  rewrite Hc. unfold update_ownership. rewrite Ht. cbn [negb].
  destruct (success result && py_truthy (conversation_id result)); [| reflexivity].
  destruct (conv_store env); [apply touch_identity | reflexivity].
Qed.

(** X20: a new question either leaves the ledger unchanged or appends exactly one row, for the user, the new conversation id and the stripped question cut to 60 characters, and then the response is a success for that id. *)
Theorem ask_route_records_new_conversation (ws : Workspace) (env : Env) (data : pyval)
    (user_header : option string) (ok : bool) (table table' : list ConvRow)
    (resp : pyval) (question : string) (w w' : World) :
  py_dict_get data "question" (PStr "") = Some (PStr question) ->
  py_truthy (match py_dict_get data "conversation_id" PNone with
             | Some v => v | None => PNone end) = false ->
  api_ask ws env data user_header ok table w = (Ok (resp, table'), w') ->
  table' = table
  \/ exists cid t,
       table' = app table
                    [mkConvRow (match user_header with Some u => u | None => "anonymous" end)
                               cid (prefix60 (strip question)) t t]
       /\ successful_response_for resp cid.
Proof.
  intros Hq Hc H.
  destruct (api_ask_inv ws env data user_header ok table table' resp w w' H)
    as [-> | [q [result [t [Hq' [-> ->]]]]]]; [left; reflexivity |].
  rewrite Hq in Hq'. injection Hq' as <-.
  unfold update_ownership. rewrite Hc. cbn [negb].
  destruct (success result) eqn:Es; [| left; reflexivity].
  destruct (py_truthy (conversation_id result)); [| left; reflexivity].
  destruct (conv_store env); [| left; reflexivity]. cbn [andb].
  unfold record. destruct ok; [| left; reflexivity].
  right. exists (conversation_id result), t. split; [reflexivity |].
  apply result_json_successful. exact Es.
Qed.

(** X21: the delete route changes the ledger only when the Genie deletion succeeded and a store is configured, and then it removes the rows of that user and conversation. *)
Theorem delete_route_changes_ledger_only_after_deletion (ws : Workspace) (env : Env)
    (conversation_id : pyval) (user_header : option string) (ok : bool)
    (table table' : list ConvRow) (resp : pyval) (w w' : World) :
  api_delete_conversation ws env conversation_id user_header ok table w
    = (Ok (resp, table'), w') ->
  table' = table
  \/ (resp = PDict [("success", PBool true)]
      /\ conv_store env = true
      /\ table' = remove table ok (match user_header with Some u => u | None => "anonymous" end)
                         conversation_id).
Proof.
  unfold api_delete_conversation. destruct (get_genie_client env) as [genie |].
  2: { intros H. injection H as _ <- _. left. reflexivity. }
  unfold bind at 1.
  destruct (delete_conversation ws genie conversation_id w)
    as [[deleted | e |] w1]; try discriminate.
  destruct (negb deleted).
  { intros H. injection H as _ <- _. left. reflexivity. }
  intros H. injection H as <- <- _.
  destruct (conv_store env) eqn:Ec; [right | left; reflexivity].
  split; [reflexivity | split; reflexivity].
Qed.

(** X22: the feedback route rejects a request with a falsy or missing conversation id, message id or rating, without calling the workspace. *)
Theorem feedback_route_rejects_missing_fields (ws : Workspace) (env : Env) (sp : string)
    (kvs : list (string * pyval)) (w : World) :
  GENIE_SPACE_ID env = Some sp -> sp <> "" ->
  forallb (fun k => py_truthy (match assoc k kvs with Some v => v | None => PNone end))
          ["conversation_id"; "message_id"; "rating"] = false ->
  api_send_feedback ws env (PDict kvs) w
  = (Ok (PDict [("success", PBool false); ("error", PStr "Missing required fields")]), w).
Proof.
  intros Hsp Hne Hm. unfold api_send_feedback. rewrite (get_genie_client_some env sp Hsp Hne).
  cbv [bind lift_py py_get py_dict_get ret]. cbn [forallb] in *.
  rewrite Hm. reflexivity.
Qed.

(** X23: the query-result route always answers with either [success: false] and an error, or [success: true] with the columns, rows and total row count. *)
Theorem query_result_route_shapes (ws : Workspace) (env : Env) (sp : string)
    (conversation_id message_id : pyval) :
  GENIE_SPACE_ID env = Some sp ->
  forall w, exists resp,
    fst (api_get_query_result ws env conversation_id message_id w) = Ok resp
    /\ ((py_dict_get resp "success" PNone = Some (PBool false)
         /\ dict_keys resp = ["success"; "error"])
        \/ (py_dict_get resp "success" PNone = Some (PBool true)
            /\ dict_keys resp = ["success"; "columns"; "rows"; "total_rows"])).
Proof.
  intros Hsp w. unfold api_get_query_result, get_genie_client. rewrite Hsp.
  destruct (String.eqb sp "").
  { eexists. split; [reflexivity |]. left. split; reflexivity. }
  unfold bind at 1.
  destruct (get_query_result_total ws (default_client sp) conversation_id message_id w)
    as [d [Hd Hshape]].
  destruct (get_query_result ws (default_client sp) conversation_id message_id w)
    as [r w1]. cbn in Hd. subst r.
  destruct d as [| | | | | kvs |]; try (destruct Hshape as [H | H]; discriminate).
  destruct Hshape as [H | H]; cbn in H.
  - destruct kvs as [| [k1 v1] [| [k2 v2] [| [k3 v3] [| ]]]]; try discriminate.
    injection H as -> -> ->. eexists. split; [reflexivity |]. right. split; reflexivity.
  - destruct kvs as [| [k1 v1] [| ]]; try discriminate.
    injection H as ->. eexists. split; [reflexivity |]. left. split; reflexivity.
Qed.

(** X24: when listing the messages fails with a non-retryable error, the messages route reports that error, after one call; an empty error message is reported as a success with no messages. *)
Theorem messages_route_reports_listing_error (ws : Workspace) (env : Env) (sp : string)
    (conversation_id : pyval) (e : string) (w : World) :
  GENIE_SPACE_ID env = Some sp -> sp <> "" ->
  _is_retryable_error e = false ->
  (forall t, list_conversation_messages ws t sp conversation_id = Fail e) ->
  api_get_conversation_messages ws env conversation_id w
  = (Ok (if String.eqb e ""
         then PDict [("success", PBool true); ("messages", PList [])]
         else PDict [("success", PBool false); ("error", PStr e)]),
     mkWorld (clock w) (draws w) (app (trace w) [ECall "list_conversation_messages"])).
Proof.
  intros Hsp Hne He Hf. unfold api_get_conversation_messages.
  rewrite (get_genie_client_some env sp Hsp Hne).
  unfold bind at 1.
  assert (Hg : get_conversation_messages ws (default_client sp) conversation_id w
               = (Ok ([], Some e),
                  mkWorld (clock w) (draws w) (app (trace w) [ECall "list_conversation_messages"]))).
  { unfold get_conversation_messages, try_except. unfold bind at 1.
    unfold _retry_with_backoff. cbn [max_retries default_client].
    rewrite (retry_loop_non_retryable ws (default_client sp)
               (list_msgs ws (default_client sp) conversation_id) 0 2 None w
               (mkWorld (clock w) (draws w) (app (trace w) [ECall "list_conversation_messages"]))
               e); [reflexivity | | exact He].
    unfold list_msgs, remote. cbn [space_id default_client]. rewrite Hf. reflexivity. }
  rewrite Hg. cbv beta iota.
  destruct (String.eqb e "") eqn:E.
  - apply String.eqb_eq in E. subst e. reflexivity.
  - unfold py_truthy. rewrite E. reflexivity.
Qed.

(** X25: when [GENIE_SPACE_ID] is unset or empty, [get_genie_client] gives
    no client and every route answers [GENIE_SPACE_ID not configured] without
    calling the workspace, sleeping, drawing jitter or changing the ledger. *)
Theorem routes_need_a_space_id (ws : Workspace) (env : Env) :
  GENIE_SPACE_ID env = None \/ GENIE_SPACE_ID env = Some "" ->
  forall w,
    (forall data user_header ok table,
       api_ask ws env data user_header ok table w = (Ok (not_configured, table), w))
    /\ (forall conversation_id user_header ok table,
          api_delete_conversation ws env conversation_id user_header ok table w
          = (Ok (not_configured, table), w))
    /\ (forall user_header ok table,
          api_list_conversations ws env user_header ok table w = (Ok not_configured, w))
    /\ (forall conversation_id message_id,
          api_get_query_result ws env conversation_id message_id w = (Ok not_configured, w))
    /\ (forall data, api_send_feedback ws env data w = (Ok not_configured, w))
    /\ (forall conversation_id,
          api_get_conversation_messages ws env conversation_id w = (Ok not_configured, w)).
Proof.
  intros Hsp w.
  assert (Hg : get_genie_client env = None)
    by (unfold get_genie_client; destruct Hsp as [-> | ->]; reflexivity).
  unfold api_ask, api_delete_conversation, api_list_conversations, api_get_query_result,
    api_send_feedback, api_get_conversation_messages.
  rewrite Hg. repeat split.
Qed.

Lemma py_eqb_trans_hashable (a b c : pyval) :
  py_hashable a = true -> py_hashable b = true -> py_hashable c = true ->
  py_eqb a b = true -> py_eqb b c = true -> py_eqb a c = true.
Proof.
  destruct a as [| x | x | x | | |], b as [| y | y | y | | |], c as [| z | z | z | | |];
    cbn; try discriminate; intros _ _ _;
    rewrite ?Z.eqb_eq, ?String.eqb_eq, ?eqb_true_iff; intros H1 H2; try reflexivity;
    try congruence;
    try (destruct x; destruct z; cbn in *; subst; try reflexivity; lia).
Qed.

Lemma existsb_perm {A} (f : A -> bool) (l l' : list A) :
  Permutation l l' -> existsb f l = existsb f l'.
Proof.
  induction 1; cbn; try congruence.
  destruct (f x), (f y); reflexivity.
Qed.

Lemma existsb_map_comp {A B} (f : B -> bool) (g : A -> B) (l : list A) :
  existsb f (map g l) = existsb (fun x => f (g x)) l.
Proof. induction l as [| x l IH]; cbn; [reflexivity | rewrite IH; reflexivity]. Qed.

Lemma id_set_members (k : pyval) (cs : list pyval) :
  py_hashable k = true ->
  forall acc, Forall (fun x => py_hashable x = true) acc ->
  Forall (fun c => exists id, py_getitem c "id" = inl id /\ py_hashable id = true) cs ->
  exists s, id_set acc cs = inl s
            /\ existsb (fun k' => py_eqb k' k) s
               = existsb (fun k' => py_eqb k' k) acc
                 || existsb (fun c => match py_getitem c "id" with
                                      | inl id => py_eqb id k
                                      | inr _ => false
                                      end) cs.
Proof.
  intros Hk. induction cs as [| c cs IH]; intros acc Hacc Hcs.
  - exists acc. split; [reflexivity |]. cbn. rewrite orb_false_r. reflexivity.
  - apply Forall_cons_iff in Hcs as [[id [Hid Hh]] Hcs].
    cbn [id_set existsb]. rewrite Hid, Hh.
    set (acc' := if existsb (fun k' => py_eqb k' id) acc then acc else app acc [id]).
    assert (Hacc' : Forall (fun x => py_hashable x = true) acc').
    { unfold acc'. destruct (existsb _ acc); [exact Hacc |].
      apply Forall_app. split; [exact Hacc | constructor; [exact Hh | constructor]]. }
    destruct (IH acc' Hacc' Hcs) as [s [Hs Hmem]].
    exists s. split; [exact Hs |]. rewrite Hmem. rewrite orb_assoc. f_equal.
    unfold acc'. destruct (existsb (fun k' => py_eqb k' id) acc) eqn:Ein.
    + destruct (py_eqb id k) eqn:Eik; [| rewrite orb_false_r; reflexivity].
      rewrite orb_true_r. apply existsb_exists in Ein as [k' [Hin' Hk'id]].
      apply existsb_exists. exists k'. split; [exact Hin' |].
      apply (py_eqb_trans_hashable k' id k); try assumption.
      exact (proj1 (Forall_forall _ _) Hacc k' Hin').
    + rewrite existsb_app. cbn. rewrite orb_false_r. reflexivity.
Qed.

(** X16: when its [SELECT] succeeds, a (hashable) id is in the set [get_ids]
    returns exactly when the ledger has a row of that user with that
    conversation id; when the statement fails the set is empty. *)
Theorem get_ids_are_owned_conversations (table : list ConvRow) (ok : bool)
    (user_email : string) (k : pyval) :
  py_hashable k = true ->
  forallb (fun r => py_hashable (row_conversation_id r)) table = true ->
  exists ids,
    get_ids table ok user_email = inl ids
    /\ existsb (fun k' => py_eqb k' k) ids
       = ok && existsb (fun r => String.eqb (row_user_email r) user_email
                                 && py_eqb (row_conversation_id r) k) table.
Proof.
  intros Hk Hh. destruct ok; [| exists []; split; reflexivity]. cbn [andb].
  unfold get_ids.
  destruct (id_set_members k (get_conversations table true user_email) Hk [] (Forall_nil _))
    as [s [Hs Hmem]].
  { apply Forall_forall. intros x Hx.
    apply get_conversations_entries in Hx as [r [Hr ->]].
    exists (row_conversation_id r). split; [reflexivity |].
    exact (proj1 (forallb_forall _ _) Hh r Hr). }
  exists s. split; [exact Hs |]. rewrite Hmem. cbn [existsb orb].
  unfold get_conversations. rewrite existsb_map_comp.
  rewrite <- (existsb_perm _ _ _ (order_by_updated_desc_perm _)).
  clear. induction table as [| r table IH]; [reflexivity |].
  cbn [filter existsb].
  destruct (String.eqb (row_user_email r) user_email); cbn [existsb andb orb]; [| exact IH].
  rewrite IH. reflexivity.
Qed.

(** ** Witnesses of the further properties *)

Lemma poll_interval_after_polls_witness :
  Nat.iter 7 (_get_next_poll_interval (default_client "sp")) 1000 = 60000.
Proof.
  rewrite (poll_interval_after_polls (default_client "sp") 1000 6);
    [reflexivity | cbn; lia].
Defined.

Lemma extract_result_without_attachments_witness :
  _extract_result (PObj "GenieMessage" [("attachments", PList [])])
  = mkGenieResult true "" None PNone None None PNone PNone.
Proof. apply extract_result_without_attachments. reflexivity. Defined.

Lemma conversation_messages_sorted_by_timestamp_witness :
  exists l,
    fst (get_conversation_messages
           (route_workspace (Reply listing_response) (Fail "unused") (Fail "unused"))
           (default_client "sp") (PStr "c1") world0) = Ok (l, None)
    /\ Permutation (flat_map transcript_entries listing_messages) l
    /\ Sorted (fun a b => py_int_of (transcript_key a) <= py_int_of (transcript_key b)) l
    /\ (forall z, filter (fun e => py_int_of (transcript_key e) =? z) l
                  = filter (fun e => py_int_of (transcript_key e) =? z)
                           (flat_map transcript_entries listing_messages)).
Proof.
  apply (conversation_messages_sorted_by_timestamp _ _ _ listing_response).
  - cbn. lia.
  - reflexivity.
  - right. reflexivity.
  - apply Forall_forall. intros x Hx. vm_compute in Hx.
    destruct Hx as [<- | [<- | [<- | []]]]; eexists; reflexivity.
Defined.

Lemma feedback_rating_other_than_positive_is_negative_witness :
  send_feedback ws_stable_chain (default_client "sp") (PStr "c1") (PStr "m0")
                (PStr "Positive")
  = send_feedback ws_stable_chain (default_client "sp") (PStr "c1") (PStr "m0")
                  (PStr "negative").
Proof. apply feedback_rating_other_than_positive_is_negative. reflexivity. Defined.

Lemma zero_retries_never_call_backend_witness :
  ask ws_stable_chain (mkGenieClient "sp" 600000 1000 60000 0) "What is total revenue?" world0
  = (Ok (mkGenieResult false "" None PNone (Some "exceptions must derive from BaseException")
                       (Some 0) PNone PNone), world0)
  /\ continue_conversation ws_stable_chain (mkGenieClient "sp" 600000 1000 60000 0)
       (PStr "c1") "What is total revenue?" world0
  = (Ok (mkGenieResult false "" None PNone (Some "exceptions must derive from BaseException")
                       (Some 0) (PStr "c1") PNone), world0)
  /\ delete_conversation ws_stable_chain (mkGenieClient "sp" 600000 1000 60000 0)
       (PStr "c1") world0 = (Ok false, world0).
Proof. apply zero_retries_never_call_backend. reflexivity. Defined.

Lemma failed_follow_up_keeps_conversation_id_witness :
  exists w',
    continue_conversation (failing_workspace "503 Service Unavailable") (default_client "sp")
      (PStr "c1") "And by region?" world0
    = (Ok (mkGenieResult false "" None PNone (Some "503 Service Unavailable")
                         (Some (clock w' - clock world0)) (PStr "c1") PNone), w').
Proof.
  apply failed_follow_up_keeps_conversation_id.
  - cbn. lia.
  - intros t. reflexivity.
  - intros n. cbn. lia.
Defined.

Lemma retry_recovers_after_transient_failure_witness :
  _retry_with_backoff (failing_workspace "unused") (default_client "sp")
    (remote "get_message" (fun t => if t <? 1 then Fail "503 Service Unavailable"
                                     else Reply msg_original)) world0
  = (Ok msg_original,
     mkWorld (0 + (RETRY_BASE_DELAY + 500)) 1
             (app [] [ECall "get_message"; ESleep (RETRY_BASE_DELAY + 500);
                      ECall "get_message"])).
Proof.
  apply (retry_recovers_after_transient_failure (failing_workspace "unused")
           (default_client "sp") "get_message"
           (fun t => if t <? 1 then Fail "503 Service Unavailable" else Reply msg_original)
           "503 Service Unavailable" msg_original world0).
  - cbn. lia.
  - reflexivity.
  - vm_compute. reflexivity.
  - cbn. lia.
  - reflexivity.
Defined.

Lemma list_route_keeps_delta_conversations_witness :
  exists convs,
    fst (api_list_conversations
           (route_workspace (Fail "unused")
              (Reply (PObj "GenieListConversationsResponse"
                        [("conversations",
                          PList [genie_conversation "c1" "Revenue by region (EMEA)" 10 90])]))
              (Fail "unused"))
           (mkEnv (Some "sp") true) (Some "analyst@example.com") true analyst_rows world0)
    = Ok (PDict [("success", PBool true); ("conversations", PList convs)])
    /\ map listing_key convs
       = map listing_key (get_conversations analyst_rows true "analyst@example.com").
Proof.
  apply (list_route_keeps_delta_conversations _ _ "sp"); first [reflexivity | discriminate].
Defined.

Lemma list_route_falls_back_to_delta_witness :
  exists w',
    api_list_conversations
      (route_workspace (Fail "unused") (Fail "connection reset") (Fail "unused"))
      (mkEnv (Some "sp") true) (Some "analyst@example.com") true analyst_rows world0
    = (Ok (PDict [("success", PBool true);
                  ("conversations",
                   PList (get_conversations analyst_rows true "analyst@example.com"))]), w').
Proof.
  exact (list_route_falls_back_to_delta
           (route_workspace (Fail "unused") (Fail "connection reset") (Fail "unused"))
           (mkEnv (Some "sp") true) "sp" (Some "analyst@example.com") true analyst_rows
           "connection reset" eq_refl ltac:(discriminate) eq_refl eq_refl (fun _ => eq_refl)
           (fun _ => ltac:(cbn; lia)) world0).
Defined.

Lemma ask_route_follow_up_adds_no_row_witness :
  exists resp table' w',
    api_ask follow_up_workspace (mkEnv (Some "sp") true)
      (PDict [("question", PStr "And by region?"); ("conversation_id", PStr "c1")])
      (Some "analyst@example.com") true analyst_rows world0 = (Ok (resp, table'), w')
    /\ map row_identity table' = map row_identity analyst_rows.
Proof.
  destruct (api_ask follow_up_workspace (mkEnv (Some "sp") true)
              (PDict [("question", PStr "And by region?"); ("conversation_id", PStr "c1")])
              (Some "analyst@example.com") true analyst_rows world0)
    as [[[resp table'] | e |] w'] eqn:E;
    [| vm_compute in E; discriminate E | vm_compute in E; discriminate E].
  exists resp, table', w'. split; [reflexivity |].
  refine (ask_route_follow_up_adds_no_row _ _ _ _ _ _ _ _ (PStr "c1") _ _ _ _ E);
    reflexivity.
Defined.

Lemma ask_route_records_new_conversation_witness :
  exists resp table' w',
    api_ask ws_stable_chain (mkEnv (Some "sp") true)
      (PDict [("question", PStr "  What is total revenue?  ")])
      (Some "analyst@example.com") true analyst_rows world0 = (Ok (resp, table'), w')
    /\ (table' = analyst_rows
        \/ exists cid t,
             table' = app analyst_rows
                        [mkConvRow "analyst@example.com" cid
                                   (prefix60 (strip "  What is total revenue?  ")) t t]
             /\ successful_response_for resp cid).
Proof.
  destruct (api_ask ws_stable_chain (mkEnv (Some "sp") true)
              (PDict [("question", PStr "  What is total revenue?  ")])
              (Some "analyst@example.com") true analyst_rows world0)
    as [[[resp table'] | e |] w'] eqn:E;
    [| vm_compute in E; discriminate E | vm_compute in E; discriminate E].
  exists resp, table', w'. split; [reflexivity |].
  refine (ask_route_records_new_conversation _ _ _ _ _ _ _ _ _ _ _ _ _ E);
    reflexivity.
Defined.

Lemma delete_route_changes_ledger_only_after_deletion_witness :
  exists resp table' w',
    api_delete_conversation (route_workspace (Fail "unused") (Fail "unused") (Reply PNone))
      (mkEnv (Some "sp") true) (PStr "c1") (Some "analyst@example.com") true analyst_rows
      world0 = (Ok (resp, table'), w')
    /\ (table' = analyst_rows
        \/ (resp = PDict [("success", PBool true)]
            /\ conv_store (mkEnv (Some "sp") true) = true
            /\ table' = remove analyst_rows true "analyst@example.com" (PStr "c1"))).
Proof.
  destruct (api_delete_conversation (route_workspace (Fail "unused") (Fail "unused") (Reply PNone))
              (mkEnv (Some "sp") true) (PStr "c1") (Some "analyst@example.com") true
              analyst_rows world0)
    as [[[resp table'] | e |] w'] eqn:E;
    [| vm_compute in E; discriminate E | vm_compute in E; discriminate E].
  exists resp, table', w'. split; [reflexivity |].
  exact (delete_route_changes_ledger_only_after_deletion _ _ _ _ _ _ _ _ _ _ E).
Defined.

Lemma feedback_route_rejects_missing_fields_witness :
  api_send_feedback ws_stable_chain (mkEnv (Some "sp") true)
    (PDict [("conversation_id", PStr "c1"); ("message_id", PStr "m0"); ("rating", PStr "")])
    world0
  = (Ok (PDict [("success", PBool false); ("error", PStr "Missing required fields")]), world0).
Proof.
  apply (feedback_route_rejects_missing_fields _ _ "sp"); first [reflexivity | discriminate].
Defined.

Lemma query_result_route_shapes_witness :
  exists resp,
    fst (api_get_query_result (query_result_workspace revenue_columns_no_rows)
           (mkEnv (Some "sp") false) (PStr "c1") (PStr "m0") world0) = Ok resp
    /\ ((py_dict_get resp "success" PNone = Some (PBool false)
         /\ dict_keys resp = ["success"; "error"])
        \/ (py_dict_get resp "success" PNone = Some (PBool true)
            /\ dict_keys resp = ["success"; "columns"; "rows"; "total_rows"])).
Proof. apply (query_result_route_shapes _ _ "sp"). reflexivity. Defined.

Lemma messages_route_reports_listing_error_witness :
  api_get_conversation_messages (route_workspace (Fail "") (Fail "unused") (Fail "unused"))
    (mkEnv (Some "sp") false) (PStr "c1") world0
  = (Ok (PDict [("success", PBool true); ("messages", PList [])]),
     mkWorld 0 0 (app [] [ECall "list_conversation_messages"])).
Proof.
  apply (messages_route_reports_listing_error _ _ "sp" _ "");
    [reflexivity | discriminate | reflexivity | intros t; reflexivity].
Defined.

Lemma get_ids_are_owned_conversations_witness :
  exists ids,
    get_ids analyst_rows true "analyst@example.com" = inl ids
    /\ existsb (fun k' => py_eqb k' (PStr "c9")) ids
       = existsb (fun r => String.eqb (row_user_email r) "analyst@example.com"
                           && py_eqb (row_conversation_id r) (PStr "c9")) analyst_rows.
Proof. apply get_ids_are_owned_conversations; reflexivity. Defined.

Lemma routes_need_a_space_id_witness :
  api_ask ws_stable_chain (mkEnv (Some "") true)
    (PDict [("question", PStr "What is total revenue?")])
    (Some "analyst@example.com") true analyst_rows world0
  = (Ok (not_configured, analyst_rows), world0)
  /\ api_get_conversation_messages ws_stable_chain (mkEnv (Some "") true) (PStr "c1") world0
     = (Ok not_configured, world0).
Proof.
  destruct (routes_need_a_space_id ws_stable_chain (mkEnv (Some "") true)
              (or_intror eq_refl) world0) as [Ha [_ [_ [_ [_ Hm]]]]].
  split; [apply Ha | apply Hm].
Defined.
